(** * gitlab-copilot: the review trigger, the response parser, the comment
    poster and the Lambda handler, embedded from the TypeScript sources.

    - [src/webhook.ts]        : [verifyWebhookToken], [shouldTriggerReview]
    - [src/reviewer.ts]       : [parseReviewResponse], [reviewMergeRequest]
    - [src/gitlab-client.ts]  : [getLatestDiffs], [postReview]
    - [src/index.ts]          : [handler]

    JavaScript strings are sequences of UTF-16 code units; numbers coming from
    GitLab (ids) are integers; numbers decoded from the assistant's answer keep
    the decimal value their literal denotes.  [JSON.parse] is a scanner over
    the code units followed by a parser over the tokens.  Calls to GitLab, git
    and Copilot are answered by a [World]; every call is appended to a
    trace. *)

From Stdlib Require Import String Ascii DecimalString.
From Stdlib Require Import List ZArith NArith Bool Lia.
Import ListNotations.
Open Scope list_scope.
Set Warnings "-register-all".

(* ------------------------------------------------------------------------- *)
(** ** JavaScript strings *)

(** A string value: its UTF-16 code units. *)
Definition jsstring := list N.

(** An ASCII literal of the source. *)
Definition lit (s : String.string) : jsstring :=
  map N_of_ascii (String.list_ascii_of_string s).

(** A literal of JSON text, written with an apostrophe wherever the text has a
    double quote. *)
Definition json_lit (s : String.string) : jsstring :=
  map (fun c => if N.eqb c 39 then 34%N else c) (lit s).

(** The line feed of a template literal. *)
Definition nl : jsstring := [10%N].

(** [a === b] on strings. *)
Fixpoint str_eqb (a b : jsstring) : bool :=
  match a, b with
  | [], [] => true
  | x :: a', y :: b' => N.eqb x y && str_eqb a' b'
  | _, _ => false
  end.

(** [s.startsWith(p)] *)
Fixpoint startsWith (p s : jsstring) : bool :=
  match p, s with
  | [], _ => true
  | x :: p', y :: s' => N.eqb x y && startsWith p' s'
  | _ :: _, [] => false
  end.

(** [s.endsWith(p)] *)
Definition endsWith (p s : jsstring) : bool :=
  startsWith (rev p) (rev s).

(** The code units [String.prototype.trim] removes: WhiteSpace and
    LineTerminator of ECMA-262. *)
Definition is_js_whitespace (c : N) : bool :=
  (N.leb 9 c && N.leb c 13) || N.eqb c 32 || N.eqb c 160 || N.eqb c 5760
  || (N.leb 8192 c && N.leb c 8202) || N.eqb c 8232 || N.eqb c 8233
  || N.eqb c 8239 || N.eqb c 8287 || N.eqb c 12288 || N.eqb c 65279.

Fixpoint trimStart (s : jsstring) : jsstring :=
  match s with
  | c :: s' => if is_js_whitespace c then trimStart s' else s
  | [] => []
  end.

(** [s.trim()] *)
Definition trim (s : jsstring) : jsstring :=
  rev (trimStart (rev (trimStart s))).

(** [a ?? b] *)
Definition nullish {A : Type} (a : option A) (b : A) : A :=
  match a with Some x => x | None => b end.

(** [ids.includes(x)] on a list of numeric ids. *)
Definition includes (ids : list Z) (x : Z) : bool :=
  existsb (Z.eqb x) ids.

(* ------------------------------------------------------------------------- *)
(** ** src/types.ts: the webhook payload (the fields the program reads) *)

Module GitLabUser.
Record t := mk { id : Z; name : jsstring; username : jsstring }.
End GitLabUser.

Module GitLabProject.
Record t := mk {
  id : Z;
  web_url : jsstring;
  path_with_namespace : jsstring;
  http_url : jsstring }.
End GitLabProject.

Module MergeRequestAttributes.
Record t := mk {
  iid : Z;
  target_branch : jsstring;
  source_branch : jsstring;
  title : jsstring;
  description : jsstring;
  action : jsstring;
  draft : bool;
  work_in_progress : bool;
  url : jsstring }.
End MergeRequestAttributes.

(** [changes.reviewer_ids]: [{ previous, current }]; either list may be
    missing in a payload, which the code reads as [[]]. *)
Module ReviewerIdsChange.
Record t := mk { previous : option (list Z); current : option (list Z) }.
End ReviewerIdsChange.

Module MergeRequestChanges.
Record t := mk { reviewer_ids : option ReviewerIdsChange.t }.
End MergeRequestChanges.

Module MergeRequestWebhookPayload.
Record t := mk {
  object_kind : jsstring;
  project : GitLabProject.t;
  object_attributes : MergeRequestAttributes.t;
  reviewers : option (list GitLabUser.t);
  changes : option MergeRequestChanges.t }.
End MergeRequestWebhookPayload.

(** The configuration of the Lambda variant. *)
Module Config.
Record t := mk {
  gitlabUrl : jsstring;
  gitlabToken : jsstring;
  gitlabBotUsername : jsstring;
  gitlabWebhookSecret : option jsstring;
  githubToken : jsstring;
  copilotModel : jsstring;
  logLevel : jsstring }.
End Config.

(* ------------------------------------------------------------------------- *)
(** ** src/webhook.ts *)

(** [if (!secret) return true; return headerToken === secret;]
    [!secret] holds for a missing and for an empty secret. *)
Definition verifyWebhookToken (headerToken secret : option jsstring) : bool :=
  match secret with
  | None => true
  | Some [] => true
  | Some sec =>
      match headerToken with
      | Some tok => str_eqb tok sec
      | None => false
      end
  end.

(** [payload.reviewers?.find((r) => r.username === config.gitlabBotUsername)] *)
Definition findBotUser (payload : MergeRequestWebhookPayload.t)
    (config : Config.t) : option GitLabUser.t :=
  match MergeRequestWebhookPayload.reviewers payload with
  | Some rs =>
      find (fun r => str_eqb (GitLabUser.username r)
                             (Config.gitlabBotUsername config)) rs
  | None => None
  end.

(** [payload.changes?.reviewer_ids] *)
Definition reviewerChanges (payload : MergeRequestWebhookPayload.t)
    : option ReviewerIdsChange.t :=
  match MergeRequestWebhookPayload.changes payload with
  | Some c => MergeRequestChanges.reviewer_ids c
  | None => None
  end.

(** [reviewerChanges.previous ?? []] and [reviewerChanges.current ?? []] *)
Definition previousIds (rc : ReviewerIdsChange.t) : list Z :=
  nullish (ReviewerIdsChange.previous rc) [].

Definition currentIds (rc : ReviewerIdsChange.t) : list Z :=
  nullish (ReviewerIdsChange.current rc) [].

Definition shouldTriggerReview (payload : MergeRequestWebhookPayload.t)
    (config : Config.t) : bool :=
  let attrs := MergeRequestWebhookPayload.object_attributes payload in
  (* Must be a merge_request event *)
  if negb (str_eqb (MergeRequestWebhookPayload.object_kind payload)
                   (lit "merge_request")) then false
  (* Must be an update action *)
  else if negb (str_eqb (MergeRequestAttributes.action attrs) (lit "update"))
  then false
  (* Skip drafts *)
  else if MergeRequestAttributes.draft attrs
          || MergeRequestAttributes.work_in_progress attrs then false
  else
    (* Check if the bot was added as reviewer *)
    match findBotUser payload config with
    | None => false
    | Some botUser =>
        match reviewerChanges payload with
        | Some rc =>
            let wasAlreadyReviewer :=
              includes (previousIds rc) (GitLabUser.id botUser) in
            let isNowReviewer :=
              includes (currentIds rc) (GitLabUser.id botUser) in
            if wasAlreadyReviewer || negb isNowReviewer then false else true
        | None => true
        end
    end.

(* ------------------------------------------------------------------------- *)
(** ** JSON values and [JSON.parse] *)

(** A number decoded from JSON text: the decimal value [digits * 10^exp10] of
    its literal.  Rounding to a binary64 double is not modelled; the program
    only asks whether a value is a number and passes it on. *)
Module JsNumber.
Record t := mk { digits : Z; exp10 : Z }.
End JsNumber.

(** A GitLab id or a length as a number value. *)
Definition num_of_Z (z : Z) : JsNumber.t := JsNumber.mk z 0.

(** A decoded value.  An object keeps its members in source order. *)
Inductive json : Type :=
| JNull
| JBool (b : bool)
| JNumber (n : JsNumber.t)
| JString (s : jsstring)
| JArray (items : list json)
| JObject (members : list (jsstring * json)).

(** JSON white space: tab, line feed, carriage return, space. *)
Definition is_json_ws (c : N) : bool :=
  N.eqb c 9 || N.eqb c 10 || N.eqb c 13 || N.eqb c 32.

Definition is_digit (c : N) : bool := N.leb 48 c && N.leb c 57.

Definition hex_value (c : N) : option N :=
  if is_digit c then Some (c - 48)%N
  else if N.leb 97 c && N.leb c 102 then Some (c - 87)%N
  else if N.leb 65 c && N.leb c 70 then Some (c - 55)%N
  else None.

(** The tokens of JSON text. *)
Inductive Token : Type :=
| TNull
| TTrue
| TFalse
| TNumber (n : JsNumber.t)
| TString (s : jsstring)
| TLBracket
| TRBracket
| TLBrace
| TRBrace
| TColon
| TComma.

(** Where the scanner stands inside a number: after the minus sign, after a
    leading zero, in the integer digits, after the dot, in the fraction
    digits, after e or E, after the sign of the exponent, in the exponent
    digits.  A number may end after a leading zero, in the integer digits,
    in the fraction digits and in the exponent digits. *)
Inductive NumPhase : Type :=
| AfterMinus | AfterZero | InInt | AfterDot | InFrac | AfterE | AfterESign
| InExp.

(** The number read so far: its sign, the value of its integer and fraction
    digits read as one integer, the number of fraction digits, the sign and
    the value of the exponent. *)
Record NumAcc := mkNum {
  negative : bool;
  mantissa : Z;
  fractionDigits : Z;
  expNegative : bool;
  exponent : Z }.

Definition numberOf (a : NumAcc) : JsNumber.t :=
  JsNumber.mk (if negative a then - mantissa a else mantissa a)%Z
              ((if expNegative a then - exponent a else exponent a)
               - fractionDigits a)%Z.

(** Where the scanner stands: between tokens; inside null, true or false
    with the code units still expected; inside a string literal with the
    code units decoded so far (newest first), possibly after a backslash or
    inside a \u escape with the hex digits read so far (newest first);
    inside a number; or stopped at a code unit no token allows. *)
Inductive Mode : Type :=
| Between
| InLiteral (expected : jsstring) (tok : Token)
| InString (acc : jsstring)
| InEscape (acc : jsstring)
| InUnicode (acc : jsstring) (hex : list N)
| InNumber (phase : NumPhase) (a : NumAcc)
| Stopped.

(** The scanner between tokens, at the code unit [c]; [toks] are the tokens
    so far, newest first. *)
Definition startToken (c : N) (toks : list Token) : Mode * list Token :=
  if is_json_ws c then (Between, toks)
  else if N.eqb c 123 then (Between, TLBrace :: toks)
  else if N.eqb c 125 then (Between, TRBrace :: toks)
  else if N.eqb c 91 then (Between, TLBracket :: toks)
  else if N.eqb c 93 then (Between, TRBracket :: toks)
  else if N.eqb c 58 then (Between, TColon :: toks)
  else if N.eqb c 44 then (Between, TComma :: toks)
  else if N.eqb c 34 then (InString [], toks)
  else if N.eqb c 110 then (InLiteral (lit "ull") TNull, toks)
  else if N.eqb c 116 then (InLiteral (lit "rue") TTrue, toks)
  else if N.eqb c 102 then (InLiteral (lit "alse") TFalse, toks)
  else if N.eqb c 45 then (InNumber AfterMinus (mkNum true 0 0 false 0), toks)
  else if N.eqb c 48 then (InNumber AfterZero (mkNum false 0 0 false 0), toks)
  else if is_digit c
  then (InNumber InInt (mkNum false (Z.of_N (c - 48)) 0 false 0), toks)
  else (Stopped, toks).

Definition addDigit (a : NumAcc) (c : N) : NumAcc :=
  mkNum (negative a) (mantissa a * 10 + Z.of_N (c - 48))%Z
        (fractionDigits a) (expNegative a) (exponent a).

Definition addFractionDigit (a : NumAcc) (c : N) : NumAcc :=
  mkNum (negative a) (mantissa a * 10 + Z.of_N (c - 48))%Z
        (fractionDigits a + 1)%Z (expNegative a) (exponent a).

Definition addExponentDigit (a : NumAcc) (c : N) : NumAcc :=
  mkNum (negative a) (mantissa a) (fractionDigits a) (expNegative a)
        (exponent a * 10 + Z.of_N (c - 48))%Z.

Definition withNegativeExponent (a : NumAcc) : NumAcc :=
  mkNum (negative a) (mantissa a) (fractionDigits a) true (exponent a).

Definition is_e (c : N) : bool := N.eqb c 101 || N.eqb c 69.

(** The scanner inside a number. When the number ends at [c], its token is
    recorded and [c] is read as the start of the next token. *)
Definition stepNumber (phase : NumPhase) (a : NumAcc) (c : N)
    (toks : list Token) : Mode * list Token :=
  let finished := startToken c (TNumber (numberOf a) :: toks) in
  match phase with
  | AfterMinus =>
      if N.eqb c 48 then (InNumber AfterZero a, toks)
      else if is_digit c then (InNumber InInt (addDigit a c), toks)
      else (Stopped, toks)
  | AfterZero =>
      if N.eqb c 46 then (InNumber AfterDot a, toks)
      else if is_e c then (InNumber AfterE a, toks)
      else finished
  | InInt =>
      if is_digit c then (InNumber InInt (addDigit a c), toks)
      else if N.eqb c 46 then (InNumber AfterDot a, toks)
      else if is_e c then (InNumber AfterE a, toks)
      else finished
  | AfterDot =>
      if is_digit c then (InNumber InFrac (addFractionDigit a c), toks)
      else (Stopped, toks)
  | InFrac =>
      if is_digit c then (InNumber InFrac (addFractionDigit a c), toks)
      else if is_e c then (InNumber AfterE a, toks)
      else finished
  | AfterE =>
      if N.eqb c 43 then (InNumber AfterESign a, toks)
      else if N.eqb c 45
      then (InNumber AfterESign (withNegativeExponent a), toks)
      else if is_digit c then (InNumber InExp (addExponentDigit a c), toks)
      else (Stopped, toks)
  | AfterESign =>
      if is_digit c then (InNumber InExp (addExponentDigit a c), toks)
      else (Stopped, toks)
  | InExp =>
      if is_digit c then (InNumber InExp (addExponentDigit a c), toks)
      else finished
  end.

(** The code unit an escape stands for. *)
Definition escaped (c : N) : option N :=
  if N.eqb c 34 then Some 34%N
  else if N.eqb c 92 then Some 92%N
  else if N.eqb c 47 then Some 47%N
  else if N.eqb c 98 then Some 8%N
  else if N.eqb c 102 then Some 12%N
  else if N.eqb c 110 then Some 10%N
  else if N.eqb c 114 then Some 13%N
  else if N.eqb c 116 then Some 9%N
  else None.

(** One code unit of the text. *)
Definition scanStep (st : Mode * list Token) (c : N) : Mode * list Token :=
  let (mode, toks) := st in
  match mode with
  | Stopped => (Stopped, toks)
  | Between => startToken c toks
  | InLiteral [] _ => (Stopped, toks)
  | InLiteral (e :: rest) tok =>
      if N.eqb c e then
        match rest with
        | [] => (Between, tok :: toks)
        | _ :: _ => (InLiteral rest tok, toks)
        end
      else (Stopped, toks)
  | InString acc =>
      if N.eqb c 34 then (Between, TString (rev acc) :: toks)
      else if N.eqb c 92 then (InEscape acc, toks)
      else if N.ltb c 32 then (Stopped, toks)
      else (InString (c :: acc), toks)
  | InEscape acc =>
      if N.eqb c 117 then (InUnicode acc [], toks)
      else match escaped c with
           | Some u => (InString (u :: acc), toks)
           | None => (Stopped, toks)
           end
  | InUnicode acc hex =>
      match hex_value c, hex with
      | Some d, [c3; b; a] =>
          (InString ((a * 4096 + b * 256 + c3 * 16 + d)%N :: acc), toks)
      | Some d, _ => (InUnicode acc (d :: hex), toks)
      | None, _ => (Stopped, toks)
      end
  | InNumber phase a => stepNumber phase a c toks
  end.

(** The tokens of a text that ends where the scanner stands. *)
Definition scanEnd (st : Mode * list Token) : option (list Token) :=
  let (mode, toks) := st in
  match mode with
  | Between => Some (rev toks)
  | InNumber (AfterZero | InInt | InFrac | InExp) a =>
      Some (rev (TNumber (numberOf a) :: toks))
  | _ => None
  end.

(** The tokens of a text, or [None] when it has a code unit no token
    allows or ends inside a token. *)
Definition scan (text : jsstring) : option (list Token) :=
  scanEnd (fold_left scanStep text (Between, [])).

(** One JSON value at the head of the tokens.  A recursive call follows a
    consumed token or is the step from a list to its next element, so twice
    the number of tokens is enough fuel (see [JSON_parse]). *)
Fixpoint parse_value (fuel : nat) (ts : list Token) {struct fuel}
    : option (json * list Token) :=
  match fuel with
  | O => None
  | S fuel' =>
      match ts with
      | TNull :: r => Some (JNull, r)
      | TTrue :: r => Some (JBool true, r)
      | TFalse :: r => Some (JBool false, r)
      | TNumber n :: r => Some (JNumber n, r)
      | TString s :: r => Some (JString s, r)
      | TLBracket :: TRBracket :: r => Some (JArray [], r)
      | TLBracket :: r =>
          match parse_elements fuel' r with
          | Some (vs, r') => Some (JArray vs, r')
          | None => None
          end
      | TLBrace :: TRBrace :: r => Some (JObject [], r)
      | TLBrace :: r =>
          match parse_members fuel' r with
          | Some (ms, r') => Some (JObject ms, r')
          | None => None
          end
      | _ => None
      end
  end

with parse_elements (fuel : nat) (ts : list Token) {struct fuel}
    : option (list json * list Token) :=
  match fuel with
  | O => None
  | S fuel' =>
      match parse_value fuel' ts with
      | Some (v, TComma :: r) =>
          match parse_elements fuel' r with
          | Some (vs, r') => Some (v :: vs, r')
          | None => None
          end
      | Some (v, TRBracket :: r) => Some ([v], r)
      | _ => None
      end
  end

with parse_members (fuel : nat) (ts : list Token) {struct fuel}
    : option (list (jsstring * json) * list Token) :=
  match fuel with
  | O => None
  | S fuel' =>
      match ts with
      | TString k :: TColon :: r =>
          match parse_value fuel' r with
          | Some (v, TComma :: r') =>
              match parse_members fuel' r' with
              | Some (ms, r'') => Some ((k, v) :: ms, r'')
              | None => None
              end
          | Some (v, TRBrace :: r') => Some ([(k, v)], r')
          | _ => None
          end
      | _ => None
      end
  end.

(** [JSON.parse(text)]: [None] stands for the SyntaxError it throws. *)
Definition JSON_parse (text : jsstring) : option json :=
  match scan text with
  | Some ts =>
      match parse_value (2 * length ts + 2) ts with
      | Some (v, []) => Some v
      | _ => None
      end
  | None => None
  end.

(** The value a member name is bound to: with a repeated name the last
    member wins, as in [JSON.parse]. *)
Fixpoint lookup (k : jsstring) (ms : list (jsstring * json)) : option json :=
  match ms with
  | [] => None
  | (k', v) :: ms' =>
      match lookup k ms' with
      | Some later => Some later
      | None => if str_eqb k' k then Some v else None
      end
  end.

(** [v.k] for a property name [k] that no built-in prototype defines and that
    is no array index (the program reads summary, comments, file, line, body
    and severity).  The outer [None] is the TypeError of reading a property
    of [null]; the inner [None] is [undefined]. *)
Definition getProperty (v : json) (k : jsstring) : option (option json) :=
  match v with
  | JNull => None
  | JObject ms => Some (lookup k ms)
  | JBool _ | JNumber _ | JString _ | JArray _ => Some None
  end.

(** [typeof x === "string"] and [typeof x === "number"] on a property read. *)
Definition isString (x : option json) : bool :=
  match x with Some (JString _) => true | _ => false end.

Definition isNumber (x : option json) : bool :=
  match x with Some (JNumber _) => true | _ => false end.

(* ------------------------------------------------------------------------- *)
(** ** src/types.ts: review and diff types *)

(** [severity] is typed ["info" | "warning" | "critical"] in the source; at
    run time it is a string, and it is kept as one here. *)
Module ReviewComment.
Record t := mk {
  file : jsstring;
  line : JsNumber.t;
  body : jsstring;
  severity : jsstring }.
End ReviewComment.

Module ReviewResult.
Record t := mk { summary : jsstring; comments : list ReviewComment.t }.
End ReviewResult.

Module DiffFile.
Record t := mk {
  old_path : jsstring;
  new_path : jsstring;
  diff : jsstring;
  new_file : bool;
  renamed_file : bool;
  deleted_file : bool;
  too_large : bool;
  collapsed : bool }.
End DiffFile.

Module MergeRequestDiffVersion.
Record t := mk {
  id : Z;
  head_commit_sha : jsstring;
  base_commit_sha : jsstring;
  start_commit_sha : jsstring }.
End MergeRequestDiffVersion.

(** [MergeRequestDiffVersionDetail extends MergeRequestDiffVersion] *)
Module MergeRequestDiffVersionDetail.
Record t := mk {
  id : Z;
  head_commit_sha : jsstring;
  base_commit_sha : jsstring;
  start_commit_sha : jsstring;
  diffs : list DiffFile.t }.
End MergeRequestDiffVersionDetail.

(** [position_type] is always ["text"]; [postReview] sets [new_line] only. *)
Module DiffPosition.
Record t := mk {
  base_sha : jsstring;
  head_sha : jsstring;
  start_sha : jsstring;
  old_path : jsstring;
  new_path : jsstring;
  new_line : option JsNumber.t;
  old_line : option JsNumber.t }.
End DiffPosition.

(* ------------------------------------------------------------------------- *)
(** ** src/reviewer.ts: the response parser *)

Definition fence : jsstring := lit "```".

(** [s.replace(/^```(?:json)?\n?/, "")] on a string that starts with the
    fence: the fence, then "json" if it follows, then one line feed if it
    follows. *)
Definition stripOpeningFence (s : jsstring) : jsstring :=
  if startsWith fence s then
    let s1 := skipn 3 s in
    let s2 := if startsWith (lit "json") s1 then skipn 4 s1 else s1 in
    if startsWith nl s2 then skipn 1 s2 else s2
  else s.

(** [s.replace(/\n?```$/, "")]: without the m flag [$] is the end of the
    text, so the leftmost match is the final line feed and fence when the text
    ends with them, else the final fence when the text ends with it. *)
Definition stripClosingFence (s : jsstring) : jsstring :=
  if endsWith (nl ++ fence) s then firstn (length s - 4) s
  else if endsWith fence s then firstn (length s - 3) s
  else s.

(** The text handed to [JSON.parse]. *)
Definition cleanResponse (content : jsstring) : jsstring :=
  let cleaned := trim content in
  if startsWith fence cleaned
  then stripClosingFence (stripOpeningFence cleaned)
  else cleaned.

(** The predicate of [.filter]:
    [typeof c.file === "string" && typeof c.line === "number" &&
     typeof c.body === "string"]; [None] is the TypeError thrown when [c] is
    [null]. *)
Definition isCommentShaped (c : json) : option bool :=
  match getProperty c (lit "file") with
  | None => None
  | Some f =>
      if isString f then
        match getProperty c (lit "line") with
        | None => None
        | Some l =>
            if isNumber l then
              match getProperty c (lit "body") with
              | None => None
              | Some b => Some (isString b)
              end
            else Some false
        end
      else Some false
  end.

(** [comments.filter(...)]; an exception in the predicate ends the filter. *)
Fixpoint filterComments (cs : list json) : option (list json) :=
  match cs with
  | [] => Some []
  | c :: cs' =>
      match isCommentShaped c with
      | None => None
      | Some keep =>
          match filterComments cs' with
          | None => None
          | Some kept => Some (if keep then c :: kept else kept)
          end
      end
  end.

(** [["info", "warning", "critical"].includes(x) ? x : "info"] *)
Definition normalizeSeverity (x : option json) : jsstring :=
  match x with
  | Some (JString s) =>
      if str_eqb s (lit "info") || str_eqb s (lit "warning")
         || str_eqb s (lit "critical")
      then s else lit "info"
  | _ => lit "info"
  end.

(** The callback of [.map]:
    [{ file: c.file, line: c.line, body: c.body, severity: ... }].
    A [ReviewComment.t] holds a string, a number and a string, so the record
    is built for the values the filter keeps; [None] elsewhere. *)
Definition toReviewComment (c : json) : option ReviewComment.t :=
  match getProperty c (lit "file"), getProperty c (lit "line"),
        getProperty c (lit "body"), getProperty c (lit "severity") with
  | Some (Some (JString f)), Some (Some (JNumber l)),
    Some (Some (JString b)), Some sev =>
      Some (ReviewComment.mk f l b (normalizeSeverity sev))
  | _, _, _, _ => None
  end.

Fixpoint mapComments (cs : list json) : option (list ReviewComment.t) :=
  match cs with
  | [] => Some []
  | c :: cs' =>
      match toReviewComment c, mapComments cs' with
      | Some rc, Some rcs => Some (rc :: rcs)
      | _, _ => None
      end
  end.

(** The body of the [try] block of [parseReviewResponse]; [None] is any
    exception thrown inside it (the [catch] does not look at it). *)
Definition tryParseReview (cleaned : jsstring) : option ReviewResult.t :=
  match JSON_parse cleaned with
  | None => None
  | Some parsed =>
      match getProperty parsed (lit "summary") with
      | None => None
      | Some (Some (JString summary)) =>
          let comments :=
            match getProperty parsed (lit "comments") with
            | Some (Some (JArray cs)) => cs
            | _ => []
            end in
          match filterComments comments with
          | None => None
          | Some kept =>
              match mapComments kept with
              | None => None
              | Some rcs => Some (ReviewResult.mk summary rcs)
              end
          end
      | Some _ => None
      end
  end.

Definition parseReviewResponse (content : jsstring) : ReviewResult.t :=
  match tryParseReview (cleanResponse content) with
  | Some parsed => parsed
  | None => ReviewResult.mk content []
  end.

(* ------------------------------------------------------------------------- *)
(** ** The collaborators: GitLab's REST API, git, Copilot *)

(** A thrown value, as the handler reports it:
    [err instanceof Error ? err.message : String(err)]. *)
Definition JsError := jsstring.

(** The options of [reviewMergeRequest]. *)
Module ReviewOptions.
Record t := mk {
  config : Config.t;
  repoDir : jsstring;
  mrTitle : jsstring;
  mrDescription : jsstring;
  mrUrl : jsstring;
  sourceBranch : jsstring;
  targetBranch : jsstring;
  diffVersion : MergeRequestDiffVersionDetail.t }.
End ReviewOptions.

(** One call that leaves the process. *)
Inductive Call : Type :=
| GetVersions (projectId mrIid : Z)
| GetVersionDetail (projectId mrIid versionId : Z)
| PostNote (projectId mrIid : Z) (body : jsstring)
| PostDiscussion (projectId mrIid : Z) (body : jsstring)
                 (position : DiffPosition.t)
| GitClone (gitHttpUrl branch gitlabToken : jsstring)
| Cleanup (dir : jsstring)
| Copilot (opts : ReviewOptions.t).

(** The calls made so far, oldest first. *)
Definition Trace := list Call.

Inductive result (A : Type) : Type :=
| Ok (a : A)
| Throw (e : JsError).
Arguments Ok {A} a.
Arguments Throw {A} e.

(** How the outside answers a call, given the calls made before it.  A REST
    call fails when [fetch] rejects or the status is not ok ([request] throws
    "GitLab API error: ..."); [gitClone] stands for [cloneRepository], which
    yields the directory of the clone or throws "Failed to clone repository:
    ..."; [copilot] stands for the session of [reviewMergeRequest] and yields
    [response?.data?.content ?? ""]. *)
Record World := mkWorld {
  getVersions : Trace -> Z -> Z -> result (list MergeRequestDiffVersion.t);
  getVersionDetail :
    Trace -> Z -> Z -> Z -> result MergeRequestDiffVersionDetail.t;
  postNote : Trace -> Z -> Z -> jsstring -> result unit;
  postDiscussion : Trace -> Z -> Z -> jsstring -> DiffPosition.t -> result unit;
  gitClone : Trace -> jsstring -> jsstring -> jsstring -> result jsstring;
  cleanupClone : Trace -> jsstring -> result unit;
  copilot : Trace -> ReviewOptions.t -> result jsstring }.

(** The state of one run: the trace and the handler's local variable
    [clone] (the directory of the clone once there is one). *)
Record RunState := mkState { trace : Trace; clone : option jsstring }.

Definition initialState : RunState := mkState [] None.

(** A computation that may throw. *)
Definition M (A : Type) : Type := RunState -> RunState * result A.

Definition ret {A : Type} (a : A) : M A := fun st => (st, Ok a).

Definition throw {A : Type} (e : JsError) : M A := fun st => (st, Throw e).

Definition bind {A B : Type} (m : M A) (k : A -> M B) : M B :=
  fun st =>
    match m st with
    | (st', Ok a) => k a st'
    | (st', Throw e) => (st', Throw e)
    end.

Notation "x <- m ;; k" := (bind m (fun x => k))
  (at level 61, m at next level, right associativity).

(** [try { m } catch (err) { h err }] *)
Definition tryCatch {A : Type} (m : M A) (h : JsError -> M A) : M A :=
  fun st =>
    match m st with
    | (st', Ok a) => (st', Ok a)
    | (st', Throw e) => h e st'
    end.

(** [try { m } finally { f }] where [m] ends by returning or throwing: [f]
    runs either way, and what [m] did stands unless [f] throws. *)
Definition tryFinally {A : Type} (m : M A) (f : M unit) : M A :=
  fun st =>
    let (st', r) := m st in
    match f st' with
    | (st'', Ok _) => (st'', r)
    | (st'', Throw e) => (st'', Throw e)
    end.

(** Make a call: record it and take the world's answer. *)
Definition perform {A : Type} (c : Call) (answer : Trace -> result A) : M A :=
  fun st => (mkState (trace st ++ [c]) (clone st), answer (trace st)).

Definition setClone (dir : jsstring) : M unit :=
  fun st => (mkState (trace st) (Some dir), Ok tt).

Definition getClone : M (option jsstring) :=
  fun st => (st, Ok (clone st)).

Module PostingOutcome.
Record t := mk { posted : Z; failed : Z }.
End PostingOutcome.

(** What the Lambda answers: the status code and the message of its body. *)
Inductive LambdaResult : Type :=
| Unauthorized
| EventIgnored
| NoDiffsToReview
| ReviewPosted (comments : nat) (posted failed : Z)
| ReviewFailed (error : JsError).

Definition statusCode (r : LambdaResult) : Z :=
  match r with
  | Unauthorized => 401
  | EventIgnored | NoDiffsToReview | ReviewPosted _ _ _ => 200
  | ReviewFailed _ => 500
  end.

Section Program.

(** [String(n)] and [s.toUpperCase()] of the runtime. *)
Variable Number_toString : JsNumber.t -> jsstring.
Variable toUpperCase : jsstring -> jsstring.

Variable w : World.

(* ------------------------------------------------------------------------- *)
(** ** src/gitlab-client.ts *)

Definition getMergeRequestVersions (projectId mrIid : Z)
    : M (list MergeRequestDiffVersion.t) :=
  perform (GetVersions projectId mrIid)
          (fun t => getVersions w t projectId mrIid).

Definition getMergeRequestVersionDetail (projectId mrIid versionId : Z)
    : M MergeRequestDiffVersionDetail.t :=
  perform (GetVersionDetail projectId mrIid versionId)
          (fun t => getVersionDetail w t projectId mrIid versionId).

Definition getLatestDiffs (projectId mrIid : Z)
    : M MergeRequestDiffVersionDetail.t :=
  versions <- getMergeRequestVersions projectId mrIid ;;
  match versions with
  | [] =>
      throw (lit "No diff versions found for MR !"
             ++ Number_toString (num_of_Z mrIid))
  (* Versions are returned newest first *)
  | latest :: _ =>
      getMergeRequestVersionDetail projectId mrIid
                                   (MergeRequestDiffVersion.id latest)
  end.

Definition postMergeRequestNote (projectId mrIid : Z) (body : jsstring)
    : M unit :=
  perform (PostNote projectId mrIid body)
          (fun t => postNote w t projectId mrIid body).

Definition postDiffDiscussion (projectId mrIid : Z) (body : jsstring)
    (position : DiffPosition.t) : M unit :=
  perform (PostDiscussion projectId mrIid body position)
          (fun t => postDiscussion w t projectId mrIid body position).

(** [diffVersion.diffs.find((d) => d.new_path === comment.file ||
    d.old_path === comment.file)] *)
Definition findDiffFile (diffVersion : MergeRequestDiffVersionDetail.t)
    (comment : ReviewComment.t) : option DiffFile.t :=
  find (fun d => str_eqb (DiffFile.new_path d) (ReviewComment.file comment)
                 || str_eqb (DiffFile.old_path d) (ReviewComment.file comment))
       (MergeRequestDiffVersionDetail.diffs diffVersion).

(** The body of a general note for a comment; the dash is U+2013. *)
Definition generalNoteBody (comment : ReviewComment.t) : jsstring :=
  lit "**" ++ ReviewComment.file comment ++ lit ":"
  ++ Number_toString (ReviewComment.line comment) ++ lit "** " ++ [8211%N]
  ++ lit " " ++ ReviewComment.body comment.

(** U+1F534, U+1F7E1 (as surrogate pairs) and U+2139 U+FE0F. *)
Definition severityIcon (comment : ReviewComment.t) : jsstring :=
  if str_eqb (ReviewComment.severity comment) (lit "critical")
  then [55357%N; 56628%N]
  else if str_eqb (ReviewComment.severity comment) (lit "warning")
  then [55357%N; 57313%N]
  else [8505%N; 65039%N].

Definition discussionBody (comment : ReviewComment.t) : jsstring :=
  severityIcon comment ++ lit " **"
  ++ toUpperCase (ReviewComment.severity comment) ++ lit "**: "
  ++ ReviewComment.body comment.

Definition diffPosition (diffVersion : MergeRequestDiffVersionDetail.t)
    (diffFile : DiffFile.t) (comment : ReviewComment.t) : DiffPosition.t :=
  DiffPosition.mk
    (MergeRequestDiffVersionDetail.base_commit_sha diffVersion)
    (MergeRequestDiffVersionDetail.head_commit_sha diffVersion)
    (MergeRequestDiffVersionDetail.start_commit_sha diffVersion)
    (DiffFile.old_path diffFile)
    (DiffFile.new_path diffFile)
    (Some (ReviewComment.line comment))
    None.

(** One turn of the loop of [postReview] on the counters [posted] and
    [failed].  A counter is bumped only after the awaited post has returned,
    so a post that throws leaves both as they were at the start of the turn. *)
Definition postComment (projectId mrIid : Z)
    (diffVersion : MergeRequestDiffVersionDetail.t)
    (counters : Z * Z) (comment : ReviewComment.t) : M (Z * Z) :=
  let (posted, failed) := counters in
  tryCatch
    (match findDiffFile diffVersion comment with
     | None =>
         _ <- postMergeRequestNote projectId mrIid (generalNoteBody comment) ;;
         ret (posted + 1, failed)%Z
     | Some diffFile =>
         _ <- postDiffDiscussion projectId mrIid (discussionBody comment)
                (diffPosition diffVersion diffFile comment) ;;
         ret (posted + 1, failed)%Z
     end)
    (fun err =>
       let failed := (failed + 1)%Z in
       (* Fallback: post as a general note *)
       tryCatch
         (_ <- postMergeRequestNote projectId mrIid (generalNoteBody comment) ;;
          ret (posted + 1, failed - 1)%Z)
         (fun _ => ret (posted, failed))).

(** [for (const comment of comments) { ... }] *)
Fixpoint postComments (projectId mrIid : Z)
    (diffVersion : MergeRequestDiffVersionDetail.t)
    (comments : list ReviewComment.t) (counters : Z * Z) : M (Z * Z) :=
  match comments with
  | [] => ret counters
  | comment :: rest =>
      counters' <- postComment projectId mrIid diffVersion counters comment ;;
      postComments projectId mrIid diffVersion rest counters'
  end.

Definition postReview (projectId mrIid : Z) (summary : jsstring)
    (comments : list ReviewComment.t)
    (diffVersion : MergeRequestDiffVersionDetail.t) : M PostingOutcome.t :=
  counters <- postComments projectId mrIid diffVersion comments (0, 0)%Z ;;
  (* Post summary *)
  _ <- postMergeRequestNote projectId mrIid summary ;;
  ret (PostingOutcome.mk (fst counters) (snd counters)).

(* ------------------------------------------------------------------------- *)
(** ** src/git.ts and src/reviewer.ts: the calls of the handler *)

Definition cloneRepository (gitHttpUrl branch gitlabToken : jsstring)
    : M jsstring :=
  perform (GitClone gitHttpUrl branch gitlabToken)
          (fun t => gitClone w t gitHttpUrl branch gitlabToken).

(** [clone.cleanup()] *)
Definition cleanup (dir : jsstring) : M unit :=
  perform (Cleanup dir) (fun t => cleanupClone w t dir).

(** The session with Copilot, then [parseReviewResponse(responseContent)].
    The prompt is a function of [opts]; its text is not modelled. *)
Definition reviewMergeRequest (opts : ReviewOptions.t) : M ReviewResult.t :=
  responseContent <- perform (Copilot opts) (fun t => copilot w t opts) ;;
  ret (parseReviewResponse responseContent).

(* ------------------------------------------------------------------------- *)
(** ** src/index.ts: the Lambda handler *)

(** U+1F916 as a surrogate pair. *)
Definition robot : jsstring := [55358%N; 56598%N].

Definition noChangesNote : jsstring :=
  robot ++ lit " **Copilot Review**: No file changes detected in this MR.".

Definition failureNote (err : JsError) : jsstring :=
  robot
  ++ lit " **Copilot Review**: Review failed with an error. Please check the Lambda logs."
  ++ nl ++ nl ++ fence ++ nl ++ err ++ nl ++ fence.

Definition summaryBody (review : ReviewResult.t) : jsstring :=
  lit "## " ++ robot ++ lit " Copilot Code Review" ++ nl ++ nl
  ++ ReviewResult.summary review ++ nl ++ nl
  ++ lit "---" ++ nl
  ++ lit "_"
  ++ Number_toString
       (num_of_Z (Z.of_nat (length (ReviewResult.comments review))))
  ++ lit " inline comment(s) posted._".

(** The [try] block of the handler. *)
Definition reviewAndPost (config : Config.t)
    (payload : MergeRequestWebhookPayload.t) : M LambdaResult :=
  let attrs := MergeRequestWebhookPayload.object_attributes payload in
  let projectId :=
    GitLabProject.id (MergeRequestWebhookPayload.project payload) in
  let mrIid := MergeRequestAttributes.iid attrs in
  let sourceBranch := MergeRequestAttributes.source_branch attrs in
  let gitHttpUrl :=
    GitLabProject.http_url (MergeRequestWebhookPayload.project payload) in
  diffVersion <- getLatestDiffs projectId mrIid ;;
  match MergeRequestDiffVersionDetail.diffs diffVersion with
  | [] =>
      _ <- postMergeRequestNote projectId mrIid noChangesNote ;;
      ret NoDiffsToReview
  | _ :: _ =>
      dir <- cloneRepository gitHttpUrl sourceBranch
               (Config.gitlabToken config) ;;
      _ <- setClone dir ;;
      review <- reviewMergeRequest
                  (ReviewOptions.mk config dir
                     (MergeRequestAttributes.title attrs)
                     (MergeRequestAttributes.description attrs)
                     (MergeRequestAttributes.url attrs)
                     sourceBranch
                     (MergeRequestAttributes.target_branch attrs)
                     diffVersion) ;;
      outcome <- postReview projectId mrIid (summaryBody review)
                   (ReviewResult.comments review) diffVersion ;;
      ret (ReviewPosted (length (ReviewResult.comments review))
                        (PostingOutcome.posted outcome)
                        (PostingOutcome.failed outcome))
  end.

(** The [catch] block of the handler: attempt to notify the MR that the
    review failed, ignore a failure of the notification, answer 500 with the
    error that was caught. *)
Definition notifyFailure (projectId mrIid : Z) (err : JsError)
    : M LambdaResult :=
  _ <- tryCatch (postMergeRequestNote projectId mrIid (failureNote err))
                (fun _ => ret tt) ;;
  ret (ReviewFailed err).

(** The [finally] block of the handler: always clean up the clone. *)
Definition cleanUpClone : M unit :=
  c <- getClone ;;
  match c with
  | Some dir => tryCatch (cleanup dir) (fun _ => ret tt)
  | None => ret tt
  end.

(** The handler from the token check on ([loadConfig] has returned [config],
    the body has been decoded to [payload]). *)
Definition handler (config : Config.t) (webhookToken : option jsstring)
    (payload : MergeRequestWebhookPayload.t) : M LambdaResult :=
  if negb (verifyWebhookToken webhookToken (Config.gitlabWebhookSecret config))
  then ret Unauthorized
  else if negb (shouldTriggerReview payload config) then ret EventIgnored
  else
    tryFinally
      (tryCatch
         (reviewAndPost config payload)
         (notifyFailure
            (GitLabProject.id (MergeRequestWebhookPayload.project payload))
            (MergeRequestAttributes.iid
               (MergeRequestWebhookPayload.object_attributes payload))))
      cleanUpClone.

End Program.


(* ------------------------------------------------------------------------- *)
(** ** src/config.ts: the configuration from the environment *)

(** [process.env]: the value of a variable, if it is set. *)
Definition Env := jsstring -> option jsstring.

(** [const value = process.env[name]; if (!value) throw ...; return value;]
    [!value] holds for a variable that is not set and for an empty one. *)
Definition requireEnv (env : Env) (name : jsstring) : result jsstring :=
  match env name with
  | Some (c :: value) => Ok (c :: value)
  | Some [] | None =>
      Throw (lit "Missing required environment variable: " ++ name)
  end.

(** [s.replace(/\/+$/, "")]: the leftmost match of a run of slashes that
    reaches the end of the text is the whole run of slashes the text ends
    with.  [dropSlashes] drops the slashes a text starts with. *)
Fixpoint dropSlashes (r : jsstring) : jsstring :=
  match r with
  | c :: r' => if N.eqb c 47 then dropSlashes r' else r
  | [] => []
  end.

Definition stripTrailingSlashes (s : jsstring) : jsstring :=
  rev (dropSlashes (rev s)).

(** The properties of the object literal are evaluated in the order they are
    written, so the first required variable that is missing is the one the
    error names. *)
Definition loadConfig (env : Env) : result Config.t :=
  match requireEnv env (lit "GITLAB_URL") with
  | Throw e => Throw e
  | Ok url =>
      match requireEnv env (lit "GITLAB_TOKEN") with
      | Throw e => Throw e
      | Ok token =>
          match requireEnv env (lit "GITLAB_BOT_USERNAME") with
          | Throw e => Throw e
          | Ok botUsername =>
              match requireEnv env (lit "GITHUB_TOKEN") with
              | Throw e => Throw e
              | Ok githubToken =>
                  Ok (Config.mk
                        (stripTrailingSlashes url)
                        token
                        botUsername
                        (env (lit "GITLAB_WEBHOOK_SECRET"))
                        githubToken
                        (nullish (env (lit "COPILOT_MODEL")) (lit "gpt-4.1"))
                        (nullish (env (lit "LOG_LEVEL")) (lit "info")))
              end
          end
      end
  end.

(* ------------------------------------------------------------------------- *)
(** ** src/reviewer.ts: the prompt *)






Section Prompt.

Variable Number_toString : JsNumber.t -> jsstring.



End Prompt.

(* ------------------------------------------------------------------------- *)
(** ** src/review.ts: the entry point of the CI job *)

Section CiJob.

Variable Number_toString : JsNumber.t -> jsstring.
Variable toUpperCase : jsstring -> jsstring.
Variable w : World.

(** The note of the [catch] block of [main]. *)
Definition ciFailureNote (err : JsError) : jsstring :=
  robot
  ++ lit " **Copilot Review**: Review failed with an error. Check the CI job log."
  ++ nl ++ nl ++ fence ++ nl ++ err ++ nl ++ fence.

(** The [try] block of [main]; its value is what it leaves in
    [process.exitCode] (unset counts as 0). *)
Definition ciReviewAndPost (config : Config.t) (projectId mrIid : Z)
    (mrTitle mrDescription sourceBranch targetBranch projectUrl
     httpUrl : jsstring) : M Z :=
  let mrUrl :=
    projectUrl ++ lit "/-/merge_requests/"
    ++ Number_toString (num_of_Z mrIid) in
  (* Clone the target project *)
  dir <- cloneRepository w httpUrl sourceBranch (Config.gitlabToken config) ;;
  _ <- setClone dir ;;
  (* Fetch diffs *)
  diffVersion <- getLatestDiffs Number_toString w projectId mrIid ;;
  match MergeRequestDiffVersionDetail.diffs diffVersion with
  | [] =>
      _ <- postMergeRequestNote w projectId mrIid noChangesNote ;;
      ret 0%Z
  | _ :: _ =>
      review <- reviewMergeRequest w
                  (ReviewOptions.mk config dir mrTitle mrDescription mrUrl
                                    sourceBranch targetBranch diffVersion) ;;
      outcome <- postReview Number_toString toUpperCase w projectId mrIid
                   (summaryBody Number_toString review)
                   (ReviewResult.comments review) diffVersion ;;
      ret (if (0 <? PostingOutcome.failed outcome)%Z then 1 else 0)%Z
  end.

(** [main] once the pipeline variables are read: the [try] block, the
    [catch] block (one note, its failure ignored, exit code 1) and the
    [finally] block (the cleanup of the clone, its failure ignored).  The
    job runs the modules of the handler; its configuration has no webhook
    secret, a field [main] does not read. *)
Definition ciMain (config : Config.t) (projectId mrIid : Z)
    (mrTitle mrDescription sourceBranch targetBranch projectUrl
     httpUrl : jsstring) : M Z :=
  tryFinally
    (tryCatch
       (ciReviewAndPost config projectId mrIid mrTitle mrDescription
                        sourceBranch targetBranch projectUrl httpUrl)
       (fun err =>
          _ <- tryCatch
                 (postMergeRequestNote w projectId mrIid (ciFailureNote err))
                 (fun _ => ret tt) ;;
          ret 1%Z))
    (cleanUpClone w).

End CiJob.

(* ------------------------------------------------------------------------- *)
(** ** Vocabulary of the properties *)

(** The general notes of a trace (their bodies, oldest first), and how often
    Copilot was called. *)
Definition notesOf (t : Trace) : list jsstring :=
  flat_map (fun c => match c with PostNote _ _ b => [b] | _ => [] end) t.

Definition copilotCalls (t : Trace) : nat :=
  length
    (filter (fun c => match c with Copilot _ => true | _ => false end) t).

(** The state after further calls. *)
Definition after (st : RunState) (calls : list Call) : RunState :=
  mkState (trace st ++ calls) (clone st).

Section Attempts.

Variable Number_toString : JsNumber.t -> jsstring.
Variable toUpperCase : jsstring -> jsstring.
Variable w : World.
Variables projectId mrIid : Z.
Variable diffVersion : MergeRequestDiffVersionDetail.t.

(** The post [postReview] tries first for a comment: the inline discussion
    when a file of the diff matches, the general note otherwise. *)
Definition firstAttempt (comment : ReviewComment.t) : Call :=
  match findDiffFile diffVersion comment with
  | None =>
      PostNote projectId mrIid (generalNoteBody Number_toString comment)
  | Some diffFile =>
      PostDiscussion projectId mrIid (discussionBody toUpperCase comment)
                     (diffPosition diffVersion diffFile comment)
  end.

(** The post of the [catch] block. *)
Definition fallbackAttempt (comment : ReviewComment.t) : Call :=
  PostNote projectId mrIid (generalNoteBody Number_toString comment).

(** The world's answer to a post made after the calls [t]. *)
Definition answerTo (t : Trace) (c : Call) : result unit :=
  match c with
  | PostNote p i b => postNote w t p i b
  | PostDiscussion p i b pos => postDiscussion w t p i b pos
  | _ => Ok tt
  end.

(** The calls [postReview] makes for one comment: the first attempt, or the
    first attempt and the fallback. *)
Definition attemptsFor (comment : ReviewComment.t) (calls : list Call) : Prop :=
  calls = [firstAttempt comment] \/
  calls = [firstAttempt comment; fallbackAttempt comment].

(** The fallback policy in the words of the specification, for one comment
    handled after the calls [t]: the first post is attempted; accepted, the
    comment counts as posted.  Refused, exactly one fallback note is
    attempted: accepted, the comment counts as posted and not as failed;
    refused too, it counts as failed, with no further attempt. *)
Definition commentPolicy (t : Trace) (comment : ReviewComment.t)
    : list Call * PostingOutcome.t :=
  match answerTo t (firstAttempt comment) with
  | Ok _ => ([firstAttempt comment], PostingOutcome.mk 1 0)
  | Throw _ =>
      ([firstAttempt comment; fallbackAttempt comment],
       match answerTo (t ++ [firstAttempt comment])
                      (fallbackAttempt comment) with
       | Ok _ => PostingOutcome.mk 1 0
       | Throw _ => PostingOutcome.mk 0 1
       end)
  end.

(** The policy for a list of comments: every comment is handled, in order,
    whatever became of the others; the calls are those of the comments one
    after the other, and the outcome adds up what each comment counts
    for. *)
Fixpoint fallbackPolicy (t : Trace) (comments : list ReviewComment.t)
    : list Call * PostingOutcome.t :=
  match comments with
  | [] => ([], PostingOutcome.mk 0 0)
  | comment :: rest =>
      let one := commentPolicy t comment in
      let others := fallbackPolicy (t ++ fst one) rest in
      (fst one ++ fst others,
       PostingOutcome.mk
         (PostingOutcome.posted (snd one)
          + PostingOutcome.posted (snd others))
         (PostingOutcome.failed (snd one)
          + PostingOutcome.failed (snd others)))
  end.

End Attempts.

(* ------------------------------------------------------------------------- *)
(** ** Sample data for the examples *)

(** Stand-ins for [String(n)] (exact on integers written without exponent)
    and [toUpperCase] (exact on ASCII letters) with which the examples are
    evaluated. *)
Definition decimalString (n : JsNumber.t) : jsstring :=
  lit (DecimalString.NilZero.string_of_int (Z.to_int (JsNumber.digits n))).

Definition asciiUpper (s : jsstring) : jsstring :=
  map (fun c => if N.leb 97 c && N.leb c 122 then (c - 32)%N else c) s.

Definition sampleConfig : Config.t :=
  Config.mk (lit "https://gitlab.example.com") (lit "glpat-x")
            (lit "copilot-reviewer") None (lit "ghp-x") (lit "gpt-4.1")
            (lit "info").

Definition alice : GitLabUser.t :=
  GitLabUser.mk 1 (lit "Alice") (lit "alice").

Definition bot : GitLabUser.t :=
  GitLabUser.mk 2 (lit "Copilot") (lit "copilot-reviewer").

Definition sampleProject : GitLabProject.t :=
  GitLabProject.mk 7 (lit "https://gitlab.example.com/g/p") (lit "g/p")
                   (lit "https://gitlab.example.com/g/p.git").

Definition sampleAttributes : MergeRequestAttributes.t :=
  MergeRequestAttributes.mk 5 (lit "main") (lit "feature") (lit "Add x")
    (lit "") (lit "update") false false
    (lit "https://gitlab.example.com/g/p/-/merge_requests/5").

(** The bot (id 2) joins alice (id 1) as a reviewer. *)
Definition botAdded : ReviewerIdsChange.t :=
  ReviewerIdsChange.mk (Some [1%Z]) (Some [1%Z; 2%Z]).

(** The bot was a reviewer before and still is. *)
Definition botKept : ReviewerIdsChange.t :=
  ReviewerIdsChange.mk (Some [1%Z; 2%Z]) (Some [1%Z; 2%Z]).

Definition payloadWith (rc : option ReviewerIdsChange.t)
    : MergeRequestWebhookPayload.t :=
  MergeRequestWebhookPayload.mk (lit "merge_request") sampleProject
    sampleAttributes (Some [alice; bot]) (Some (MergeRequestChanges.mk rc)).

Definition samplePayload : MergeRequestWebhookPayload.t :=
  payloadWith (Some botAdded).

Definition sampleVersion : MergeRequestDiffVersion.t :=
  MergeRequestDiffVersion.mk 11 (lit "head") (lit "base") (lit "start").

Definition sampleFile : DiffFile.t :=
  DiffFile.mk (lit "a.ts") (lit "a.ts") (lit "+x") false false false false
              false.

Definition detailWith (files : list DiffFile.t)
    : MergeRequestDiffVersionDetail.t :=
  MergeRequestDiffVersionDetail.mk 11 (lit "head") (lit "base") (lit "start")
                                   files.

Definition sampleDetail : MergeRequestDiffVersionDetail.t :=
  detailWith [sampleFile].

Definition emptyDetail : MergeRequestDiffVersionDetail.t := detailWith [].

(** A comment on a file of [sampleDetail], and one on a file that is not in
    the diff. *)
Definition commentOnDiff : ReviewComment.t :=
  ReviewComment.mk (lit "a.ts") (num_of_Z 3) (lit "rename x") (lit "warning").

Definition commentElsewhere : ReviewComment.t :=
  ReviewComment.mk (lit "b.ts") (num_of_Z 9) (lit "see b") (lit "info").

(** The answer of Copilot in the examples. *)
Definition sampleAnswer : jsstring :=
  json_lit "{'summary':'ok','comments':[{'file':'a.ts','line':3,'body':'rename x','severity':'warning'}]}".

(** A world in which GitLab answers the diff requests with [detail], every
    general note with [note], every inline discussion with [discussion], git
    with [cloned] and Copilot with [answer]. *)
Definition worldWith (detail : MergeRequestDiffVersionDetail.t)
    (note discussion : result unit) (cloned answer : result jsstring)
    : World :=
  mkWorld (fun _ _ _ => Ok [sampleVersion])
          (fun _ _ _ _ => Ok detail)
          (fun _ _ _ _ => note)
          (fun _ _ _ _ _ => discussion)
          (fun _ _ _ _ => cloned)
          (fun _ _ => Ok tt)
          (fun _ _ => answer).

Definition apiError : JsError := lit "GitLab API error: 500 Internal Server Error".

Definition cloneError : JsError :=
  lit "Failed to clone repository: branch not found".

(** Everything works. *)
Definition fineWorld : World :=
  worldWith sampleDetail (Ok tt) (Ok tt) (Ok (lit "/tmp/gitlab-review-1"))
            (Ok sampleAnswer).

(** GitLab refuses every general note. *)
Definition noNotesWorld (detail : MergeRequestDiffVersionDetail.t) : World :=
  worldWith detail (Throw apiError) (Ok tt) (Ok (lit "/tmp/gitlab-review-1"))
            (Ok sampleAnswer).

(** GitLab accepts the first inline discussion of a run and refuses the
    later ones; notes are accepted. *)
Definition secondInlineFailsWorld : World :=
  mkWorld (fun _ _ _ => Ok [sampleVersion])
          (fun _ _ _ _ => Ok sampleDetail)
          (fun _ _ _ _ => Ok tt)
          (fun t _ _ _ _ =>
             match t with [] => Ok tt | _ :: _ => Throw apiError end)
          (fun _ _ _ _ => Ok (lit "/tmp/gitlab-review-1"))
          (fun _ _ => Ok tt)
          (fun _ _ => Ok sampleAnswer).

(** The clone fails. *)
Definition noCloneWorld : World :=
  worldWith sampleDetail (Ok tt) (Ok tt) (Throw cloneError) (Ok sampleAnswer).

(* ------------------------------------------------------------------------- *)
(** ** Run-fatal errors, by the stage of the run they end *)

Inductive Stage : Type := FetchingDiff | AcquiringSource | Reviewing.

(** The options the handler passes to [reviewMergeRequest]. *)
Definition reviewOptions (config : Config.t)
    (payload : MergeRequestWebhookPayload.t) (dir : jsstring)
    (diffVersion : MergeRequestDiffVersionDetail.t) : ReviewOptions.t :=
  let attrs := MergeRequestWebhookPayload.object_attributes payload in
  ReviewOptions.mk config dir
    (MergeRequestAttributes.title attrs)
    (MergeRequestAttributes.description attrs)
    (MergeRequestAttributes.url attrs)
    (MergeRequestAttributes.source_branch attrs)
    (MergeRequestAttributes.target_branch attrs)
    diffVersion.

(** The call with which the handler clones the source branch. *)
Definition cloneCall (config : Config.t)
    (payload : MergeRequestWebhookPayload.t) : Call :=
  GitClone
    (GitLabProject.http_url (MergeRequestWebhookPayload.project payload))
    (MergeRequestAttributes.source_branch
       (MergeRequestWebhookPayload.object_attributes payload))
    (Config.gitlabToken config).

(** A run of the handler, started with an empty trace, meets the error [e]:
    while fetching the diffs; or with the diffs (not empty) at hand, when git
    fails to clone; or with the clone at hand, when the session with Copilot
    fails. *)
Inductive fatalError (Number_toString : JsNumber.t -> jsstring) (w : World)
    (config : Config.t) (payload : MergeRequestWebhookPayload.t)
    : Stage -> JsError -> Prop :=
| diffFetchError (st1 : RunState) (e : JsError) :
    getLatestDiffs Number_toString w
      (GitLabProject.id (MergeRequestWebhookPayload.project payload))
      (MergeRequestAttributes.iid
         (MergeRequestWebhookPayload.object_attributes payload))
      initialState = (st1, Throw e) ->
    fatalError Number_toString w config payload FetchingDiff e
| checkoutError (st1 : RunState) (dv : MergeRequestDiffVersionDetail.t)
    (e : JsError) :
    getLatestDiffs Number_toString w
      (GitLabProject.id (MergeRequestWebhookPayload.project payload))
      (MergeRequestAttributes.iid
         (MergeRequestWebhookPayload.object_attributes payload))
      initialState = (st1, Ok dv) ->
    MergeRequestDiffVersionDetail.diffs dv <> [] ->
    gitClone w (trace st1)
      (GitLabProject.http_url (MergeRequestWebhookPayload.project payload))
      (MergeRequestAttributes.source_branch
         (MergeRequestWebhookPayload.object_attributes payload))
      (Config.gitlabToken config) = Throw e ->
    fatalError Number_toString w config payload AcquiringSource e
| assistantError (st1 : RunState) (dv : MergeRequestDiffVersionDetail.t)
    (dir : jsstring) (e : JsError) :
    getLatestDiffs Number_toString w
      (GitLabProject.id (MergeRequestWebhookPayload.project payload))
      (MergeRequestAttributes.iid
         (MergeRequestWebhookPayload.object_attributes payload))
      initialState = (st1, Ok dv) ->
    MergeRequestDiffVersionDetail.diffs dv <> [] ->
    gitClone w (trace st1)
      (GitLabProject.http_url (MergeRequestWebhookPayload.project payload))
      (MergeRequestAttributes.source_branch
         (MergeRequestWebhookPayload.object_attributes payload))
      (Config.gitlabToken config) = Ok dir ->
    copilot w (trace st1 ++ [cloneCall config payload])
            (reviewOptions config payload dir dv) = Throw e ->
    fatalError Number_toString w config payload Reviewing e.

(* ------------------------------------------------------------------------- *)
(** ** Vocabulary of the parser's properties *)

(** The three severities of a [ReviewComment]. *)
Definition allowedSeverities : list jsstring :=
  [lit "info"; lit "warning"; lit "critical"].

(** The candidate comments of a decoded answer: the items of [comments]
    when it is an array, none otherwise. *)
Definition candidates (parsed : json) : list json :=
  match getProperty parsed (lit "comments") with
  | Some (Some (JArray cs)) => cs
  | _ => []
  end.

(** A candidate with a string [file], a numeric [line] and a string
    [body]. *)
Definition shaped (c : json) : bool :=
  match c with
  | JObject ms =>
      isString (lookup (lit "file") ms) && isNumber (lookup (lit "line") ms)
      && isString (lookup (lit "body") ms)
  | _ => false
  end.

(** The record of a candidate: its own file, line and body. *)
Definition recordOf (c : json) (rc : ReviewComment.t) : Prop :=
  exists ms,
    c = JObject ms /\
    lookup (lit "file") ms = Some (JString (ReviewComment.file rc)) /\
    lookup (lit "line") ms = Some (JNumber (ReviewComment.line rc)) /\
    lookup (lit "body") ms = Some (JString (ReviewComment.body rc)) /\
    ReviewComment.severity rc =
      normalizeSeverity (lookup (lit "severity") ms).

(** Inside null, true and false the scanner expects letters. *)
Definition expectsLetters (st : Mode * list Token) : Prop :=
  match fst st with
  | InLiteral expected _ =>
      Forall (fun e => is_js_whitespace e = false) expected
  | _ => True
  end.

(** A text inside a fenced code block that carries a language tag:
    the fence and the tag on a line, the text, the fence on a line. *)
Definition wrapInFence (tag text : jsstring) : jsstring :=
  fence ++ tag ++ nl ++ text ++ nl ++ fence.

Definition okAnswer : jsstring := json_lit "{'summary':'ok','comments':[]}".

(** An answer whose only comment has a string where the line belongs. *)
Definition badLineAnswer : jsstring :=
  json_lit "{'summary':'x','comments':[{'file':'a.ts','line':'not-a-number','body':'b','severity':'critical'}]}".

(** An answer whose first candidate is [null] and whose second is a
    well-formed comment. *)
Definition nullCandidateAnswer : jsstring :=
  json_lit "{'summary':'x','comments':[null,{'file':'a.ts','line':1,'body':'b','severity':'critical'}]}".

(** Text that is no JSON, inside a fence. *)
Definition fencedProse : jsstring :=
  fence ++ nl ++ lit "not json at all" ++ nl ++ fence.

(* ------------------------------------------------------------------------- *)
(** ** Sample runs *)

(** A second comment on the file of [sampleDetail]. *)
Definition secondCommentOnDiff : ReviewComment.t :=
  ReviewComment.mk (lit "a.ts") (num_of_Z 4) (lit "check y") (lit "critical").

(** GitLab refuses the first two general notes of a run and accepts the
    later ones. *)
Definition twoNotesFailWorld : World :=
  mkWorld (fun _ _ _ => Ok [sampleVersion])
          (fun _ _ _ _ => Ok sampleDetail)
          (fun t _ _ _ =>
             match t with
             | [] | [_] => Throw apiError
             | _ :: _ :: _ => Ok tt
             end)
          (fun _ _ _ _ _ => Ok tt)
          (fun _ _ _ _ => Ok (lit "/tmp/gitlab-review-1"))
          (fun _ _ => Ok tt)
          (fun _ _ => Ok sampleAnswer).

(** The handler on the sample event when the diff has no files and GitLab
    accepts, or refuses, general notes. *)
Definition noChangesRun : RunState * result LambdaResult :=
  handler decimalString asciiUpper
          (worldWith emptyDetail (Ok tt) (Ok tt)
                     (Ok (lit "/tmp/gitlab-review-1")) (Ok sampleAnswer))
          sampleConfig None samplePayload initialState.

Definition noChangesRefusedRun : RunState * result LambdaResult :=
  handler decimalString asciiUpper (noNotesWorld emptyDetail) sampleConfig
          None samplePayload initialState.

(** [postReview] without comments when GitLab refuses general notes. *)
Definition summaryRefusedRun : RunState * result PostingOutcome.t :=
  postReview decimalString asciiUpper (noNotesWorld sampleDetail) 7 5
             (lit "summary") [] sampleDetail initialState.

(** [postReview] of one comment on a file that is not in the diff, when
    GitLab refuses the first two general notes. *)
Definition unmatchedRefusedRun : RunState * result PostingOutcome.t :=
  postReview decimalString asciiUpper twoNotesFailWorld 7 5 (lit "summary")
             [commentElsewhere] sampleDetail initialState.

(** GitLab accepts the first inline discussion of a run and refuses the
    later ones; it accepts every general note but the one whose body is the
    summary of the examples. *)
Definition summaryNoteRefusedWorld : World :=
  mkWorld (fun _ _ _ => Ok [sampleVersion])
          (fun _ _ _ _ => Ok sampleDetail)
          (fun _ _ _ b =>
             if str_eqb b (lit "summary") then Throw apiError else Ok tt)
          (fun t _ _ _ _ =>
             match t with [] => Ok tt | _ :: _ => Throw apiError end)
          (fun _ _ _ _ => Ok (lit "/tmp/gitlab-review-1"))
          (fun _ _ => Ok tt)
          (fun _ _ => Ok sampleAnswer).

(** [postReview] of two comments on the diff in that world: the inline post
    of the first is accepted, the inline post of the second is refused and
    its fallback accepted, the summary note is refused. *)
Definition fallbackSummaryRefusedRun : RunState * result PostingOutcome.t :=
  postReview decimalString asciiUpper summaryNoteRefusedWorld 7 5
             (lit "summary") [commentOnDiff; secondCommentOnDiff]
             sampleDetail initialState.

(* ------------------------------------------------------------------------- *)
(** ** Tactics *)

(** Rewrites every test of a code unit [w] from U+00A0 on. *)
Ltac high_unit w H :=
  repeat match goal with
         | |- context [N.eqb w ?k] =>
             replace (N.eqb w k) with false
               by (symmetry; apply N.eqb_neq; lia)
         | |- context [N.leb w ?k] =>
             replace (N.leb w k) with false
               by (symmetry; apply N.leb_gt; lia)
         | |- context [N.ltb w ?k] =>
             replace (N.ltb w k) with false
               by (symmetry; apply N.ltb_ge; lia)
         | |- context [N.leb ?k w] =>
             replace (N.leb k w) with true
               by (symmetry; apply N.leb_le; lia)
         end.

(* ------------------------------------------------------------------------- *)
(** ** Vocabulary of the further properties *)

(** The variables [loadConfig] requires, in the order it reads them. *)
Definition requiredVariables : list jsstring :=
  [lit "GITLAB_URL"; lit "GITLAB_TOKEN"; lit "GITLAB_BOT_USERNAME";
   lit "GITHUB_TOKEN"].

(** A variable that is not set, or set to the empty string. *)
Definition missing (env : Env) (name : jsstring) : bool :=
  match env name with
  | Some (_ :: _) => false
  | Some [] | None => true
  end.


(** The stage of a run a call belongs to: fetching the diffs, cloning, the
    session with Copilot, posting to the merge request, cleaning up. *)
Definition stageOf (c : Call) : nat :=
  match c with
  | GetVersions _ _ | GetVersionDetail _ _ _ => 0
  | GitClone _ _ _ => 1
  | Copilot _ => 2
  | PostNote _ _ _ | PostDiscussion _ _ _ _ => 3
  | Cleanup _ => 4
  end.

(** The calls of a trace come stage by stage: no call is followed, however
    much later, by a call of an earlier stage. *)
Fixpoint inStageOrder (t : Trace) : Prop :=
  match t with
  | [] => True
  | c :: rest =>
      Forall (fun later => stageOf c <= stageOf later) rest /\
      inStageOrder rest
  end.

(** How often a trace cleans up a clone. *)
Definition cleanupCalls (t : Trace) : nat :=
  length
    (filter (fun c => match c with Cleanup _ => true | _ => false end) t).

(** An environment for the examples. *)
Definition sampleEnv : Env :=
  fun name =>
    if str_eqb name (lit "GITLAB_URL")
    then Some (lit "https://gitlab.example.com//")
    else if str_eqb name (lit "GITLAB_TOKEN") then Some (lit "glpat-x")
    else if str_eqb name (lit "GITLAB_BOT_USERNAME")
    then Some (lit "copilot-reviewer")
    else if str_eqb name (lit "GITHUB_TOKEN") then Some (lit "ghp-x")
    else None.

(** A call of [postReview] for the merge request [mrIid] of [projectId]: a
    general note, or an inline discussion anchored on the three commits of
    the diff version and on the paths of one of its files, on the new side
    only. *)
Definition postsTo (projectId mrIid : Z)
    (diffVersion : MergeRequestDiffVersionDetail.t) (c : Call) : Prop :=
  match c with
  | PostNote p i _ => p = projectId /\ i = mrIid
  | PostDiscussion p i _ pos =>
      p = projectId /\ i = mrIid /\
      DiffPosition.base_sha pos
      = MergeRequestDiffVersionDetail.base_commit_sha diffVersion /\
      DiffPosition.head_sha pos
      = MergeRequestDiffVersionDetail.head_commit_sha diffVersion /\
      DiffPosition.start_sha pos
      = MergeRequestDiffVersionDetail.start_commit_sha diffVersion /\
      (exists d,
         In d (MergeRequestDiffVersionDetail.diffs diffVersion) /\
         DiffPosition.old_path pos = DiffFile.old_path d /\
         DiffPosition.new_path pos = DiffFile.new_path d) /\
      DiffPosition.new_line pos <> None /\
      DiffPosition.old_line pos = None
  | _ => False
  end.

(** The directory of the clone a run of the handler gets, if it gets one:
    the diffs are fetched and not empty, and git clones the source
    branch. *)
Definition clonedDir (Number_toString : JsNumber.t -> jsstring) (w : World)
    (config : Config.t) (payload : MergeRequestWebhookPayload.t)
    : option jsstring :=
  match getLatestDiffs Number_toString w
          (GitLabProject.id (MergeRequestWebhookPayload.project payload))
          (MergeRequestAttributes.iid
             (MergeRequestWebhookPayload.object_attributes payload))
          initialState with
  | (st1, Ok dv) =>
      match MergeRequestDiffVersionDetail.diffs dv with
      | [] => None
      | _ :: _ =>
          match gitClone w (trace st1)
                  (GitLabProject.http_url
                     (MergeRequestWebhookPayload.project payload))
                  (MergeRequestAttributes.source_branch
                     (MergeRequestWebhookPayload.object_attributes payload))
                  (Config.gitlabToken config) with
          | Ok dir => Some dir
          | Throw _ => None
          end
      end
  | (_, Throw _) => None
  end.

(** The value [sampleAnswer] decodes to. *)
Definition sampleParsed : json := Eval vm_compute in
    match JSON_parse (cleanResponse sampleAnswer) with
    | Some parsed => parsed
    | None => JNull
    end.

(** An answer whose [comments] is a string. *)
Definition noArrayAnswer : jsstring :=
  json_lit "{'summary':'fine','comments':'none'}".

Definition noArrayParsed : json := Eval vm_compute in
    match JSON_parse (cleanResponse noArrayAnswer) with
    | Some parsed => parsed
    | None => JNull
    end.

(** GitLab refuses every inline discussion and accepts every general
    note. *)
Definition noInlineWorld : World :=
  worldWith sampleDetail (Ok tt) (Throw apiError)
            (Ok (lit "/tmp/gitlab-review-1")) (Ok sampleAnswer).
(* ========================================================================= *)
(** * Properties *)

(** ** Strings and lists *)

Lemma str_eqb_refl (a : jsstring) : str_eqb a a = true.
Proof.
  induction a as [|x a IH]; simpl; [reflexivity|].
  now rewrite N.eqb_refl, IH.
Qed.

Lemma str_eqb_eq (a b : jsstring) : str_eqb a b = true <-> a = b.
Proof.
  split.
  - revert b; induction a as [|x a IH]; intros [|y b] H; simpl in H;
      try discriminate; [reflexivity|].
    apply andb_true_iff in H as [Hx Hr].
    apply N.eqb_eq in Hx. apply IH in Hr. now subst.
  - intros ->. apply str_eqb_refl.
Qed.

Lemma str_eqb_neq (a b : jsstring) : str_eqb a b = false <-> a <> b.
Proof.
  rewrite <- str_eqb_eq. destruct (str_eqb a b); split; congruence.
Qed.


(** ** The trigger gate *)

(** The user [find] returns is a reviewer of the event who carries the bot's
    username, and any such reviewer makes [find] succeed. *)
Lemma findBotUser_present (payload : MergeRequestWebhookPayload.t)
    (config : Config.t) :
  (exists rs r,
      MergeRequestWebhookPayload.reviewers payload = Some rs /\ In r rs /\
      GitLabUser.username r = Config.gitlabBotUsername config)
  <-> exists botUser, findBotUser payload config = Some botUser.
Proof.
  unfold findBotUser. split.
  - intros (rs & r & -> & Hin & Hname).
    destruct (find _ rs) as [b|] eqn:E; [now exists b|].
    pose proof (find_none _ _ E r Hin) as Hn. simpl in Hn.
    rewrite Hname, str_eqb_refl in Hn. discriminate.
  - intros [b Hb].
    destruct (MergeRequestWebhookPayload.reviewers payload) as [rs|];
      [|discriminate].
    apply find_some in Hb as [Hin Hname]. apply str_eqb_eq in Hname.
    now exists rs, b.
Qed.


(** ** The comment poster *)

Section PostReviewFacts.

Variable Number_toString : JsNumber.t -> jsstring.
Variable toUpperCase : jsstring -> jsstring.
Variable w : World.
Variables projectId mrIid : Z.
Variable diffVersion : MergeRequestDiffVersionDetail.t.

Let first :=
  firstAttempt Number_toString toUpperCase projectId mrIid diffVersion.
Let fallback := fallbackAttempt Number_toString projectId mrIid.
Let turn :=
  postComment Number_toString toUpperCase w projectId mrIid diffVersion.
Let loop :=
  postComments Number_toString toUpperCase w projectId mrIid diffVersion.
Let policy :=
  fallbackPolicy Number_toString toUpperCase w projectId mrIid diffVersion.

Lemma after_after (st : RunState) (a b : list Call) :
  after (after st a) b = after st (a ++ b).
Proof. unfold after; simpl. now rewrite app_assoc. Qed.

Lemma after_nil (st : RunState) : after st [] = st.
Proof. destruct st; unfold after; simpl. now rewrite app_nil_r. Qed.

(** What one turn of the loop does, by the world's answers: it never throws,
    makes one call when the first attempt is accepted and otherwise two. *)
Lemma postComment_turn (counters : Z * Z) (comment : ReviewComment.t)
    (st : RunState) :
  turn counters comment st =
  match answerTo w (trace st) (first comment) with
  | Ok _ =>
      (after st [first comment],
       Ok (fst counters + 1, snd counters)%Z)
  | Throw _ =>
      match answerTo w (trace st ++ [first comment]) (fallback comment) with
      | Ok _ =>
          (after st [first comment; fallback comment],
           Ok (fst counters + 1, snd counters + 1 - 1)%Z)
      | Throw _ =>
          (after st [first comment; fallback comment],
           Ok (fst counters, snd counters + 1)%Z)
      end
  end.
Proof.
  subst turn first fallback. destruct counters as [posted failed].
  unfold postComment, firstAttempt, fallbackAttempt, tryCatch, bind,
    postMergeRequestNote, postDiffDiscussion, perform, ret, after.
  destruct (findDiffFile diffVersion comment) as [d|]; simpl.
  - destruct (postDiscussion w (trace st) _ _ _ _); simpl; [reflexivity|].
    rewrite <- app_assoc; simpl.
    destruct (postNote w _ _ _ _); reflexivity.
  - destruct (postNote w (trace st) _ _ _); simpl; [reflexivity|].
    rewrite <- app_assoc; simpl.
    destruct (postNote w _ _ _ _); reflexivity.
Qed.

(** A turn returns new counters whatever the world answers. *)
Lemma postComment_returns (counters : Z * Z) (comment : ReviewComment.t)
    (st : RunState) :
  exists calls counters',
    turn counters comment st = (after st calls, Ok counters') /\
    attemptsFor Number_toString toUpperCase projectId mrIid diffVersion
                comment calls /\
    (fst counters' + snd counters' = fst counters + snd counters + 1)%Z /\
    (fst counters <= fst counters')%Z /\ (snd counters <= snd counters')%Z.
Proof.
  rewrite postComment_turn. unfold attemptsFor. fold first fallback.
  destruct (answerTo w (trace st) (first comment)).
  - eexists _, _. split; [reflexivity|]. simpl.
    repeat split; try lia. now left.
  - destruct (answerTo w (trace st ++ [first comment]) (fallback comment));
      eexists _, _; (split; [reflexivity|]); simpl;
      repeat split; try lia; now right.
Qed.

(** The loop, one turn at a time. *)
Lemma postComments_cons (comment : ReviewComment.t)
    (rest : list ReviewComment.t) (counters : Z * Z) (st : RunState) :
  loop (comment :: rest) counters st =
  match turn counters comment st with
  | (st', Ok counters') => loop rest counters' st'
  | (st', Throw e) => (st', Throw e)
  end.
Proof. reflexivity. Qed.

(** The loop makes the attempts of every comment, in order, never throws, and
    moves each comment into exactly one counter. *)
Lemma postComments_all (comments : list ReviewComment.t) :
  forall (counters : Z * Z) (st : RunState),
  exists calls counters',
    loop comments counters st = (after st (concat calls), Ok counters') /\
    Forall2 (attemptsFor Number_toString toUpperCase projectId mrIid
                         diffVersion) comments calls /\
    (fst counters' + snd counters'
     = fst counters + snd counters + Z.of_nat (length comments))%Z /\
    (fst counters <= fst counters')%Z /\ (snd counters <= snd counters')%Z.
Proof.
  induction comments as [|c rest IH]; intros counters st.
  - exists [], counters. simpl. rewrite after_nil.
    repeat split; try lia; constructor.
  - destruct (postComment_returns counters c st)
      as (calls1 & counters1 & Hturn & Hcalls1 & Hsum1 & Hp1 & Hf1).
    destruct (IH counters1 (after st calls1))
      as (calls2 & counters2 & Hloop & Hcalls2 & Hsum2 & Hp2 & Hf2).
    exists (calls1 :: calls2), counters2.
    rewrite postComments_cons, Hturn, Hloop, after_after. simpl concat.
    split; [reflexivity|]. split; [now constructor|].
    split; [|lia]. rewrite Hsum2, Hsum1. simpl length. lia.
Qed.

(** The loop carries out the fallback policy: its calls are the calls of the
    policy, and it adds to the counters what the policy counts. *)
Lemma postComments_policy (comments : list ReviewComment.t) :
  forall (counters : Z * Z) (st : RunState),
    loop comments counters st =
    (after st (fst (policy (trace st) comments)),
     Ok (fst counters
         + PostingOutcome.posted (snd (policy (trace st) comments)),
         snd counters
         + PostingOutcome.failed (snd (policy (trace st) comments)))%Z).
Proof.
  induction comments as [|c rest IH]; intros counters st.
  - simpl. rewrite after_nil, !Z.add_0_r. now destruct counters.
  - rewrite postComments_cons, postComment_turn.
    subst policy. cbn [fallbackPolicy]. unfold commentPolicy.
    fold first fallback.
    destruct (answerTo w (trace st) (first c)) as [u|e1].
    + rewrite IH, after_after. cbn [fst snd trace after].
      cbn [PostingOutcome.posted PostingOutcome.failed].
      do 3 f_equal; lia.
    + destruct (answerTo w (trace st ++ [first c]) (fallback c)) as [u|e2];
        rewrite IH, after_after; cbn [fst snd trace after];
        cbn [PostingOutcome.posted PostingOutcome.failed];
        do 3 f_equal; lia.
Qed.

(** [postReview] is its loop, then the summary note, whose answer decides
    between returning the counters and throwing. *)
Lemma postReview_unfold (summary : jsstring) (comments : list ReviewComment.t)
    (st st1 : RunState) (counters : Z * Z) :
  loop comments (0, 0)%Z st = (st1, Ok counters) ->
  postReview Number_toString toUpperCase w projectId mrIid summary comments
             diffVersion st =
  (after st1 [PostNote projectId mrIid summary],
   match postNote w (trace st1) projectId mrIid summary with
   | Ok _ => Ok (PostingOutcome.mk (fst counters) (snd counters))
   | Throw e => Throw e
   end).
Proof.
  intros Hloop. subst loop. unfold postReview, bind at 1. rewrite Hloop.
  unfold bind, postMergeRequestNote, perform, ret, after.
  destruct (postNote w (trace st1) projectId mrIid summary); reflexivity.
Qed.


(** A comment whose file is neither the new nor the old path of a file of
    the diff finds no diff file, and conversely. *)
Lemma findDiffFile_none (comment : ReviewComment.t) :
  findDiffFile diffVersion comment = None <->
  (forall d, In d (MergeRequestDiffVersionDetail.diffs diffVersion) ->
     DiffFile.new_path d <> ReviewComment.file comment /\
     DiffFile.old_path d <> ReviewComment.file comment).
Proof.
  unfold findDiffFile. split.
  - intros Hnone d Hin. pose proof (find_none _ _ Hnone d Hin) as Hd.
    simpl in Hd. apply orb_false_iff in Hd as [Hn Ho].
    now rewrite str_eqb_neq in Hn, Ho.
  - intros Hall.
    destruct (find _ _) as [d|] eqn:E; [|reflexivity].
    apply find_some in E as [Hin Hd]. destruct (Hall d Hin) as [Hn Ho].
    apply orb_true_iff in Hd as [Hd | Hd]; apply str_eqb_eq in Hd;
      contradiction.
Qed.

(** C2, as the code has it. [postReview] carries out the fallback policy on
    every comment of the list, in order, whatever GitLab answers to the
    others: for each comment the first post is attempted, a refused first
    post is followed by exactly one fallback general note and nothing more,
    and the comment counts as posted when either post is accepted and as
    failed when both are refused.  The calls of [postReview] are the calls
    of the policy followed by the summary note; when the summary note is
    accepted [postReview] returns what the policy counts, and when it is
    refused [postReview] throws its error and returns no outcome.  In
    particular, for [ok1; failing1] where the post of ok1 is accepted, the
    inline post of failing1 throws and its fallback is accepted, the
    outcome is posted 2, failed 0 when the summary note is accepted. *)
Theorem postReview_fallback_policy :
  (forall summary comments st,
     postReview Number_toString toUpperCase w projectId mrIid summary
                comments diffVersion st =
     (after st (fst (policy (trace st) comments)
                ++ [PostNote projectId mrIid summary]),
      match postNote w (trace st ++ fst (policy (trace st) comments))
                     projectId mrIid summary with
      | Ok _ => Ok (snd (policy (trace st) comments))
      | Throw e => Throw e
      end))
  /\
  (forall ok1 failing1 diffFile summary st e,
     findDiffFile diffVersion failing1 = Some diffFile ->
     answerTo w (trace st) (first ok1) = Ok tt ->
     postDiscussion w (trace st ++ [first ok1]) projectId mrIid
       (discussionBody toUpperCase failing1)
       (diffPosition diffVersion diffFile failing1) = Throw e ->
     answerTo w (trace st ++ [first ok1; first failing1])
              (fallback failing1) = Ok tt ->
     postReview Number_toString toUpperCase w projectId mrIid summary
                [ok1; failing1] diffVersion st =
     (after st [first ok1;
                PostDiscussion projectId mrIid
                  (discussionBody toUpperCase failing1)
                  (diffPosition diffVersion diffFile failing1);
                fallback failing1;
                PostNote projectId mrIid summary],
      match postNote w
              (trace st ++ [first ok1; first failing1; fallback failing1])
              projectId mrIid summary with
      | Ok _ => Ok (PostingOutcome.mk 2 0)
      | Throw e' => Throw e'
      end)).
Proof.
  assert (Hrun : forall summary comments st,
             postReview Number_toString toUpperCase w projectId mrIid
                        summary comments diffVersion st =
             (after st (fst (policy (trace st) comments)
                        ++ [PostNote projectId mrIid summary]),
              match postNote w (trace st ++ fst (policy (trace st) comments))
                             projectId mrIid summary with
              | Ok _ => Ok (snd (policy (trace st) comments))
              | Throw e => Throw e
              end)).
  { intros summary comments st.
    rewrite (postReview_unfold summary comments st _ _
               (postComments_policy comments (0, 0)%Z st)).
    rewrite after_after. cbn [fst snd trace after]. rewrite !Z.add_0_l.
    now destruct (snd (policy (trace st) comments)). }
  split; [exact Hrun|].
  intros ok1 failing1 diffFile summary st e Hfind H1 H2 H3.
  assert (Hfirst : first failing1
                   = PostDiscussion projectId mrIid
                       (discussionBody toUpperCase failing1)
                       (diffPosition diffVersion diffFile failing1))
    by (subst first; unfold firstAttempt; now rewrite Hfind).
  assert (H2' : answerTo w (trace st ++ [first ok1]) (first failing1)
                = Throw e) by (rewrite Hfirst; exact H2).
  rewrite Hrun. subst policy. cbn [fallbackPolicy]. unfold commentPolicy.
  fold first fallback. rewrite H1. cbn [fst snd].
  rewrite H2'. cbn [fst snd]. rewrite <- !app_assoc. cbn [app].
  rewrite H3. cbn [fst snd PostingOutcome.posted PostingOutcome.failed].
  rewrite Hfirst. reflexivity.
Qed.

(** C10. Whatever GitLab answers to the posts of the comments, the loop of
    [postReview] ends with counters [posted] and [failed] that are not
    negative and add up to the number of comments; these counters are the
    outcome [postReview] returns, which it does unless the summary note
    throws. *)
Theorem postReview_counts_every_comment :
  forall (summary : jsstring) (comments : list ReviewComment.t)
         (st : RunState),
  exists st1 posted failed,
    loop comments (0, 0)%Z st = (st1, Ok (posted, failed)) /\
    (posted + failed = Z.of_nat (length comments))%Z /\
    (0 <= posted)%Z /\ (0 <= failed)%Z /\
    postReview Number_toString toUpperCase w projectId mrIid summary comments
               diffVersion st =
    (after st1 [PostNote projectId mrIid summary],
     match postNote w (trace st1) projectId mrIid summary with
     | Ok _ => Ok (PostingOutcome.mk posted failed)
     | Throw e => Throw e
     end).
Proof.
  intros summary comments st.
  destruct (postComments_all comments (0, 0)%Z st)
    as (calls & [posted failed] & Hloop & _ & Hsum & Hp & Hf).
  simpl in Hsum, Hp, Hf.
  exists (after st (concat calls)), posted, failed.
  repeat split; try assumption.
  now rewrite (postReview_unfold summary comments st _ _ Hloop).
Qed.

(** C6, as the code has it. After the attempts of all comments, and whatever
    became of them, [postReview] makes exactly one more call, the general
    note with the summary.  If GitLab accepts it, the counters are returned;
    if GitLab refuses it, [postReview] throws that error and returns no
    outcome.  With no comments the summary note is the only call, and the
    outcome, if the note is accepted, is posted 0, failed 0. *)
Theorem postReview_summary_last :
  forall (summary : jsstring) (comments : list ReviewComment.t)
         (st : RunState),
  (exists calls counters,
     loop comments (0, 0)%Z st = (after st (concat calls), Ok counters) /\
     Forall2 (attemptsFor Number_toString toUpperCase projectId mrIid
                          diffVersion) comments calls /\
     postReview Number_toString toUpperCase w projectId mrIid summary
                comments diffVersion st =
     (after st (concat calls ++ [PostNote projectId mrIid summary]),
      match postNote w (trace st ++ concat calls) projectId mrIid summary with
      | Ok _ => Ok (PostingOutcome.mk (fst counters) (snd counters))
      | Throw e => Throw e
      end))
  /\
  postReview Number_toString toUpperCase w projectId mrIid summary []
             diffVersion st =
  (after st [PostNote projectId mrIid summary],
   match postNote w (trace st) projectId mrIid summary with
   | Ok _ => Ok (PostingOutcome.mk 0 0)
   | Throw e => Throw e
   end).
Proof.
  intros summary comments st. split.
  - destruct (postComments_all comments (0, 0)%Z st)
      as (calls & counters & Hloop & Hcalls & _).
    exists calls, counters. repeat split; try assumption.
    rewrite (postReview_unfold summary comments st _ _ Hloop).
    now rewrite after_after.
  - now rewrite (postReview_unfold summary [] st st (0, 0)%Z).
Qed.

(** C7, as the code has it. A comment whose file is neither the new nor the
    old path of any file of the diff is never posted inline: its first
    attempt is the general note that starts with the file and the line. If
    GitLab accepts the note, the comment is counted in [posted] and not in
    [failed]. If GitLab refuses it, the [catch] block posts the same note
    once more: accepted, the comment is counted in [posted]; refused again,
    it is counted in [failed]. In every case the loop goes on with the
    remaining comments. *)
Theorem postReview_unmatched_file :
  forall (comment : ReviewComment.t) (rest : list ReviewComment.t)
         (counters : Z * Z) (st : RunState),
    (forall d, In d (MergeRequestDiffVersionDetail.diffs diffVersion) ->
       DiffFile.new_path d <> ReviewComment.file comment /\
       DiffFile.old_path d <> ReviewComment.file comment) ->
    let note :=
      PostNote projectId mrIid (generalNoteBody Number_toString comment) in
    findDiffFile diffVersion comment = None /\
    (exists text,
       generalNoteBody Number_toString comment =
       lit "**" ++ ReviewComment.file comment ++ lit ":"
       ++ Number_toString (ReviewComment.line comment) ++ text) /\
    exists st' counters',
      turn counters comment st = (st', Ok counters') /\
      loop (comment :: rest) counters st = loop rest counters' st' /\
      match postNote w (trace st) projectId mrIid
                     (generalNoteBody Number_toString comment) with
      | Ok _ =>
          st' = after st [note] /\
          counters' = (fst counters + 1, snd counters)%Z
      | Throw _ =>
          st' = after st [note; note] /\
          match postNote w (trace st ++ [note]) projectId mrIid
                         (generalNoteBody Number_toString comment) with
          | Ok _ => counters' = (fst counters + 1, snd counters)%Z
          | Throw _ => counters' = (fst counters, snd counters + 1)%Z
          end
      end.
Proof.
  intros comment rest counters st Hnone note.
  apply findDiffFile_none in Hnone.
  split; [assumption|]. split.
  - unfold generalNoteBody. eexists. reflexivity.
  - assert (Hfirst : first comment = note).
    { subst first note. unfold firstAttempt. now rewrite Hnone. }
    assert (Hturn := postComment_turn counters comment st).
    rewrite Hfirst in Hturn. subst fallback. unfold fallbackAttempt in Hturn.
    fold note in Hturn. simpl answerTo in Hturn.
    assert (Hgo : forall st' counters',
               turn counters comment st = (st', Ok counters') ->
               loop (comment :: rest) counters st = loop rest counters' st').
    { intros st' counters' H. now rewrite postComments_cons, H. }
    destruct (postNote w (trace st) projectId mrIid _).
    + eexists _, _. split; [exact Hturn|]. split; [now apply Hgo|].
      now split.
    + destruct (postNote w (trace st ++ [note]) projectId mrIid _);
        eexists _, _; (split; [exact Hturn|]); (split; [now apply Hgo|]);
        split; try reflexivity.
      do 2 f_equal. lia.
Qed.

End PostReviewFacts.

(** ** The handler *)

Lemma notesOf_app (a b : Trace) : notesOf (a ++ b) = notesOf a ++ notesOf b.
Proof. unfold notesOf. apply flat_map_app. Qed.

Lemma copilotCalls_app (a b : Trace) :
  copilotCalls (a ++ b) = copilotCalls a + copilotCalls b.
Proof. unfold copilotCalls. now rewrite filter_app, length_app. Qed.

(** The error text stands in the failure note, between the fences. *)
Lemma failureNote_contains (e : JsError) :
  exists before behind, failureNote e = before ++ e ++ behind.
Proof.
  unfold failureNote.
  exists (robot
          ++ lit " **Copilot Review**: Review failed with an error. Please check the Lambda logs."
          ++ nl ++ nl ++ fence ++ nl), (nl ++ fence).
  now rewrite <- !app_assoc.
Qed.

Section HandlerFacts.

Variable Number_toString : JsNumber.t -> jsstring.
Variable toUpperCase : jsstring -> jsstring.
Variable w : World.

(** Fetching the diffs posts nothing, asks Copilot nothing and leaves the
    variable [clone] alone. *)
Lemma getLatestDiffs_calls (projectId mrIid : Z) (st st1 : RunState)
    (r : result MergeRequestDiffVersionDetail.t) :
  getLatestDiffs Number_toString w projectId mrIid st = (st1, r) ->
  clone st1 = clone st /\
  exists calls,
    trace st1 = trace st ++ calls /\ notesOf calls = [] /\
    copilotCalls calls = 0.
Proof.
  unfold getLatestDiffs, bind, getMergeRequestVersions,
    getMergeRequestVersionDetail, perform, throw.
  destruct (getVersions w (trace st) projectId mrIid) as [[|latest vs]|e];
    intros H; inversion H; subst; clear H; simpl; (split; [reflexivity|]).
  - now exists [GetVersions projectId mrIid].
  - exists [GetVersions projectId mrIid;
            GetVersionDetail projectId mrIid
              (MergeRequestDiffVersion.id latest)].
    now rewrite <- app_assoc.
  - now exists [GetVersions projectId mrIid].
Qed.

(** The [catch] block makes one call, whatever its answer. *)
Lemma notifyFailure_run (projectId mrIid : Z) (err : JsError)
    (st : RunState) :
  notifyFailure w projectId mrIid err st =
  (after st [PostNote projectId mrIid (failureNote err)], Ok (ReviewFailed err)).
Proof.
  unfold notifyFailure, bind, tryCatch, postMergeRequestNote, perform, ret,
    after.
  now destruct (postNote w (trace st) projectId mrIid (failureNote err)).
Qed.


(** The [finally] block makes the cleanup call when there is a clone, and
    never throws. *)
Lemma cleanUpClone_run (st : RunState) :
  cleanUpClone w st =
  match clone st with
  | Some dir => (after st [Cleanup dir], Ok tt)
  | None => (st, Ok tt)
  end.
Proof.
  unfold cleanUpClone, bind, getClone.
  destruct (clone st) as [dir|]; [|reflexivity].
  unfold tryCatch, cleanup, perform, ret, after.
  now destruct (cleanupClone w (trace st) dir) as [[]|].
Qed.

(** Past the token check and the trigger gate, the handler is its [try],
    [catch] and [finally]. *)
Lemma handler_triggered (config : Config.t) (webhookToken : option jsstring)
    (payload : MergeRequestWebhookPayload.t) (st : RunState) :
  verifyWebhookToken webhookToken (Config.gitlabWebhookSecret config) = true ->
  shouldTriggerReview payload config = true ->
  handler Number_toString toUpperCase w config webhookToken payload st =
  let (st1, r) :=
    reviewAndPost Number_toString toUpperCase w config payload st in
  let (st2, r') :=
    match r with
    | Ok a => (st1, Ok a)
    | Throw e =>
        (after st1
           [PostNote
              (GitLabProject.id (MergeRequestWebhookPayload.project payload))
              (MergeRequestAttributes.iid
                 (MergeRequestWebhookPayload.object_attributes payload))
              (failureNote e)],
         Ok (ReviewFailed e))
    end in
  match clone st2 with
  | Some dir => (after st2 [Cleanup dir], r')
  | None => (st2, r')
  end.
Proof.
  intros Hverify Htrigger. unfold handler. rewrite Hverify, Htrigger. simpl.
  unfold tryFinally, tryCatch.
  destruct (reviewAndPost _ _ _ _ _ st) as [st1 [a|e]].
  - rewrite cleanUpClone_run. now destruct (clone st1).
  - rewrite notifyFailure_run, cleanUpClone_run.
    now destruct (clone (after st1 _)).
Qed.

(** C4. In a run that passed the token check and the trigger gate, an error
    while fetching the diffs, while cloning, or in the session with Copilot
    makes the handler post exactly one general note in the whole run, the
    failure note that carries the error message; whatever GitLab answers to
    that note, the handler answers 500 "Review failed" with the error that
    was caught; and when the error came before the Reviewing stage, Copilot
    is not called at all. *)
Theorem handler_fatal_error :
  forall (config : Config.t) (webhookToken : option jsstring)
         (payload : MergeRequestWebhookPayload.t) (stage : Stage)
         (e : JsError),
    verifyWebhookToken webhookToken (Config.gitlabWebhookSecret config)
      = true ->
    shouldTriggerReview payload config = true ->
    fatalError Number_toString w config payload stage e ->
    exists st',
      handler Number_toString toUpperCase w config webhookToken payload
              initialState = (st', Ok (ReviewFailed e)) /\
      statusCode (ReviewFailed e) = 500%Z /\
      notesOf (trace st') = [failureNote e] /\
      (exists before behind, failureNote e = before ++ e ++ behind) /\
      (stage <> Reviewing -> copilotCalls (trace st') = 0).
Proof.
  intros config webhookToken payload stage e Hverify Htrigger Hfatal.
  rewrite (handler_triggered _ _ _ _ Hverify Htrigger).
  unfold reviewAndPost.
  destruct Hfatal as [st1 e Hfetch | st1 dv e Hfetch Hdiffs Hclone
                     | st1 dv dir e Hfetch Hdiffs Hclone Hcopilot];
    unfold bind at 1; rewrite Hfetch;
    destruct (getLatestDiffs_calls _ _ _ _ _ Hfetch)
      as (Hcl & calls & Htrace & Hnotes & Hcop);
    simpl in Hcl, Htrace.
  - unfold after. simpl clone. rewrite Hcl.
    eexists. split; [reflexivity|]. simpl trace.
    rewrite Htrace, notesOf_app, copilotCalls_app, Hnotes, Hcop.
    repeat split; auto using failureNote_contains.
  - destruct (MergeRequestDiffVersionDetail.diffs dv) as [|d ds];
      [contradiction|].
    unfold bind at 1, cloneRepository, perform. rewrite Hclone.
    unfold after. simpl clone. rewrite Hcl.
    eexists. split; [reflexivity|]. simpl trace.
    rewrite Htrace, !notesOf_app, !copilotCalls_app, Hnotes, Hcop.
    repeat split; auto using failureNote_contains.
  - destruct (MergeRequestDiffVersionDetail.diffs dv) as [|d ds];
      [contradiction|].
    unfold bind at 1, cloneRepository, perform. rewrite Hclone.
    unfold bind at 1, setClone. simpl trace.
    unfold bind at 1, reviewMergeRequest, bind at 1, perform. simpl trace.
    unfold cloneCall, reviewOptions in Hcopilot. rewrite Hcopilot.
    unfold after. simpl clone.
    eexists. split; [reflexivity|]. simpl trace.
    rewrite Htrace, !notesOf_app, Hnotes.
    repeat split; auto using failureNote_contains. congruence.
Qed.

(** C5, as the code has it. When the diff version that was fetched has no
    files, the handler never calls Copilot, and its next call is the general
    note "No file changes detected". If GitLab accepts that note, it is the
    only note of the run and the handler answers 200. If GitLab refuses it,
    the handler takes its [catch] block: it attempts a second note, the
    failure note with the error, and answers 500. *)
Theorem handler_no_changes :
  forall (config : Config.t) (webhookToken : option jsstring)
         (payload : MergeRequestWebhookPayload.t) (st1 : RunState)
         (dv : MergeRequestDiffVersionDetail.t),
    verifyWebhookToken webhookToken (Config.gitlabWebhookSecret config)
      = true ->
    shouldTriggerReview payload config = true ->
    getLatestDiffs Number_toString w
      (GitLabProject.id (MergeRequestWebhookPayload.project payload))
      (MergeRequestAttributes.iid
         (MergeRequestWebhookPayload.object_attributes payload))
      initialState = (st1, Ok dv) ->
    MergeRequestDiffVersionDetail.diffs dv = [] ->
    exists st' r,
      handler Number_toString toUpperCase w config webhookToken payload
              initialState = (st', Ok r) /\
      copilotCalls (trace st') = 0 /\
      match postNote w (trace st1)
              (GitLabProject.id (MergeRequestWebhookPayload.project payload))
              (MergeRequestAttributes.iid
                 (MergeRequestWebhookPayload.object_attributes payload))
              noChangesNote with
      | Ok _ =>
          r = NoDiffsToReview /\ statusCode r = 200%Z /\
          notesOf (trace st') = [noChangesNote]
      | Throw e =>
          r = ReviewFailed e /\ statusCode r = 500%Z /\
          notesOf (trace st') = [noChangesNote; failureNote e]
      end.
Proof.
  intros config webhookToken payload st1 dv Hverify Htrigger Hfetch Hdiffs.
  rewrite (handler_triggered _ _ _ _ Hverify Htrigger).
  unfold reviewAndPost. unfold bind at 1. rewrite Hfetch, Hdiffs.
  destruct (getLatestDiffs_calls _ _ _ _ _ Hfetch)
    as (Hcl & calls & Htrace & Hnotes & Hcop).
  simpl in Hcl, Htrace.
  unfold bind, postMergeRequestNote, perform, ret.
  destruct (postNote w (trace st1) _ _ noChangesNote) as [u|e];
    unfold after; simpl clone; rewrite Hcl;
    eexists _, _; (split; [reflexivity|]); simpl trace;
    rewrite Htrace, !notesOf_app, !copilotCalls_app, Hnotes, Hcop;
    repeat split; reflexivity.
Qed.

End HandlerFacts.

(** ** The fuel of the token parser *)

(** Each of the three parsers consumes at least one token. *)
Lemma parse_consumes (fuel : nat) :
  (forall ts v r, parse_value fuel ts = Some (v, r) -> length r < length ts)
  /\ (forall ts vs r,
        parse_elements fuel ts = Some (vs, r) -> length r < length ts)
  /\ (forall ts ms r,
        parse_members fuel ts = Some (ms, r) -> length r < length ts).
Proof.
  induction fuel as [|fuel (IHv & IHe & IHm)];
    [repeat split; intros; discriminate|].
  split; [|split].
  - intros ts v r H. simpl in H.
    destruct ts as [|[| | |n|s| | | | | |] ts]; try discriminate;
      try (inversion H; subst; simpl; lia).
    + destruct ts as [|[| | |n|s| | | | | |] ts'];
        try (inversion H; subst; simpl; lia);
        (destruct (parse_elements fuel _) as [[vs r']|] eqn:E;
         [|discriminate]);
        inversion H; subst; apply IHe in E; simpl in *; lia.
    + destruct ts as [|[| | |n|s| | | | | |] ts'];
        try (inversion H; subst; simpl; lia);
        (destruct (parse_members fuel _) as [[ms r']|] eqn:E;
         [|discriminate]);
        inversion H; subst; apply IHm in E; simpl in *; lia.
  - intros ts vs r H. simpl in H.
    destruct (parse_value fuel ts) as [[v r1]|] eqn:Ev; [|discriminate].
    apply IHv in Ev.
    destruct r1 as [|[| | |n|s| | | | | |] r2]; try discriminate.
    + inversion H; subst. simpl in Ev. lia.
    + destruct (parse_elements fuel r2) as [[vs' r']|] eqn:E; [|discriminate].
      inversion H; subst. apply IHe in E. simpl in Ev. lia.
  - intros ts ms r H. simpl in H.
    destruct ts as [|[| | |n|k| | | | | |] ts]; try discriminate.
    destruct ts as [|[| | |n|s| | | | | |] ts]; try discriminate.
    destruct (parse_value fuel ts) as [[v r1]|] eqn:Ev; [|discriminate].
    apply IHv in Ev.
    destruct r1 as [|[| | |n|s| | | | | |] r2]; try discriminate.
    + inversion H; subst. simpl in *. lia.
    + destruct (parse_members fuel r2) as [[ms' r']|] eqn:E; [|discriminate].
      inversion H; subst. apply IHm in E. simpl in *. lia.
Qed.

(** From twice the number of tokens on, more fuel changes nothing: what
    [JSON_parse] returns does not depend on its choice of fuel. *)
Lemma parse_fuel_stable (fuel : nat) :
  (forall fuel' ts,
     2 * length ts + 2 <= fuel -> 2 * length ts + 2 <= fuel' ->
     parse_value fuel ts = parse_value fuel' ts)
  /\ (forall fuel' ts,
        2 * length ts + 3 <= fuel -> 2 * length ts + 3 <= fuel' ->
        parse_elements fuel ts = parse_elements fuel' ts)
  /\ (forall fuel' ts,
        2 * length ts + 3 <= fuel -> 2 * length ts + 3 <= fuel' ->
        parse_members fuel ts = parse_members fuel' ts).
Proof.
  induction fuel as [|fuel (IHv & IHe & IHm)];
    [repeat split; intros; lia|].
  split; [|split].
  - intros [|fuel'] ts H1 H2; [lia|]. simpl.
    destruct ts as [|[| | |n|s| | | | | |] ts]; try reflexivity.
    + destruct ts as [|[| | |n|s| | | | | |] ts']; try reflexivity;
        (rewrite (IHe fuel'); [reflexivity | simpl in *; lia..]).
    + destruct ts as [|[| | |n|s| | | | | |] ts']; try reflexivity;
        (rewrite (IHm fuel'); [reflexivity | simpl in *; lia..]).
  - intros [|fuel'] ts H1 H2; [lia|]. simpl.
    rewrite (IHv fuel' ts) by lia.
    destruct (parse_value fuel' ts) as [[v r1]|] eqn:Ev; [|reflexivity].
    apply (proj1 (parse_consumes fuel')) in Ev.
    destruct r1 as [|[| | |n|s| | | | | |] r2]; try reflexivity.
    rewrite (IHe fuel' r2); [reflexivity | simpl in *; lia..].
  - intros [|fuel'] ts H1 H2; [lia|]. simpl.
    destruct ts as [|[| | |n|k| | | | | |] ts]; try reflexivity.
    destruct ts as [|[| | |n|s| | | | | |] ts]; try reflexivity.
    rewrite (IHv fuel' ts) by (simpl in *; lia).
    destruct (parse_value fuel' ts) as [[v r1]|] eqn:Ev; [|reflexivity].
    apply (proj1 (parse_consumes fuel')) in Ev.
    destruct r1 as [|[| | |n|s| | | | | |] r2]; try reflexivity.
    rewrite (IHm fuel' r2); [reflexivity | simpl in *; lia..].
Qed.

(** ** The response parser *)

Lemma normalizeSeverity_allowed (x : option json) :
  In (normalizeSeverity x) allowedSeverities.
Proof.
  unfold normalizeSeverity, allowedSeverities.
  destruct x as [[| | |s| |]|]; try (left; reflexivity).
  destruct (str_eqb s (lit "info")) eqn:E1; simpl.
  { apply str_eqb_eq in E1. now left. }
  destruct (str_eqb s (lit "warning")) eqn:E2; simpl.
  { apply str_eqb_eq in E2. right. now left. }
  destruct (str_eqb s (lit "critical")) eqn:E3; simpl.
  { apply str_eqb_eq in E3. right. right. now left. }
  now left.
Qed.

(** The filter throws exactly on a [null] candidate; elsewhere it keeps the
    shaped candidates. *)
Lemma isCommentShaped_spec (c : json) :
  isCommentShaped c = if match c with JNull => true | _ => false end
                      then None else Some (shaped c).
Proof.
  destruct c as [| | | | |ms]; try reflexivity.
  unfold isCommentShaped, shaped, getProperty.
  destruct (isString (lookup (lit "file") ms)); [|reflexivity].
  destruct (isNumber (lookup (lit "line") ms)); reflexivity.
Qed.

Lemma filterComments_no_null (cs : list json) :
  Forall (fun c => c <> JNull) cs ->
  filterComments cs = Some (filter shaped cs).
Proof.
  induction 1 as [|c cs Hc _ IH]; [reflexivity|].
  simpl. rewrite isCommentShaped_spec, IH.
  destruct c; try reflexivity. contradiction.
Qed.

Lemma filterComments_null (cs : list json) :
  In JNull cs -> filterComments cs = None.
Proof.
  induction cs as [|c cs IH]; intros Hin; [contradiction|].
  simpl. destruct Hin as [-> | Hin]; [reflexivity|].
  rewrite (IH Hin). now destruct (isCommentShaped c).
Qed.

(** [.map] builds a record for every shaped candidate, from the candidate's
    own fields. *)
Lemma toReviewComment_shaped (c : json) :
  shaped c = true -> exists rc, toReviewComment c = Some rc /\ recordOf c rc.
Proof.
  destruct c as [| | | | |ms]; try discriminate.
  unfold shaped, toReviewComment, getProperty, recordOf.
  destruct (lookup (lit "file") ms) as [[| | |f| |]|] eqn:Ef; try discriminate.
  destruct (lookup (lit "line") ms) as [[| |l| | |]|] eqn:El; try discriminate.
  destruct (lookup (lit "body") ms) as [[| | |b| |]|] eqn:Eb; try discriminate.
  intros _. eexists. split; [reflexivity|].
  exists ms. simpl. now rewrite Ef, El, Eb.
Qed.

Lemma mapComments_shaped (cs : list json) :
  Forall (fun c => shaped c = true) cs ->
  exists rcs, mapComments cs = Some rcs /\ Forall2 recordOf cs rcs.
Proof.
  induction 1 as [|c cs Hc _ (rcs & Hmap & Hrec)].
  - now exists [].
  - destruct (toReviewComment_shaped c Hc) as (rc & Hrc & Hof).
    exists (rc :: rcs). simpl. rewrite Hrc, Hmap. split; [reflexivity|].
    now constructor.
Qed.

(** Whatever the filter returns, [.map] builds a record for each item: the
    [None] of [mapComments] is never met after the filter. *)
Lemma filterComments_kept (cs kept : list json) :
  filterComments cs = Some kept ->
  Forall (fun c => shaped c = true) kept.
Proof.
  revert kept; induction cs as [|c cs IH]; intros kept H; simpl in H.
  - inversion H. constructor.
  - rewrite isCommentShaped_spec in H.
    destruct (match c with JNull => true | _ => false end); [discriminate|].
    destruct (filterComments cs) as [kept'|]; [|discriminate].
    destruct (shaped c) eqn:E; inversion H; subst; clear H; auto.
Qed.

Lemma mapComments_after_filter (cs kept : list json) :
  filterComments cs = Some kept ->
  exists rcs, mapComments kept = Some rcs /\ Forall2 recordOf kept rcs.
Proof.
  intros H. apply mapComments_shaped. now apply filterComments_kept in H.
Qed.

Lemma mapComments_severity (cs : list json) (rcs : list ReviewComment.t) :
  mapComments cs = Some rcs ->
  Forall (fun rc => In (ReviewComment.severity rc) allowedSeverities) rcs.
Proof.
  revert rcs; induction cs as [|c cs IH]; intros rcs H; simpl in H.
  - inversion H. constructor.
  - destruct (toReviewComment c) as [rc|] eqn:Erc; [|discriminate].
    destruct (mapComments cs) as [rcs'|]; [|discriminate].
    inversion H; subst; clear H. constructor; [|now apply IH].
    unfold toReviewComment in Erc.
    destruct (getProperty c (lit "file")) as [[[| | |f| |]|]|];
      try discriminate.
    destruct (getProperty c (lit "line")) as [[[| |l| | |]|]|];
      try discriminate.
    destruct (getProperty c (lit "body")) as [[[| | |b| |]|]|];
      try discriminate.
    destruct (getProperty c (lit "severity")) as [sev|]; [|discriminate].
    inversion Erc; subst. apply normalizeSeverity_allowed.
Qed.

Lemma tryParseReview_severity (cleaned : jsstring) (r : ReviewResult.t) :
  tryParseReview cleaned = Some r ->
  Forall (fun rc => In (ReviewComment.severity rc) allowedSeverities)
         (ReviewResult.comments r).
Proof.
  unfold tryParseReview.
  destruct (JSON_parse cleaned) as [parsed|]; [|discriminate].
  destruct (getProperty parsed (lit "summary")) as [[[| | |s| |]|]|];
    try discriminate.
  destruct (filterComments _) as [kept|]; [|discriminate].
  destruct (mapComments kept) as [rcs|] eqn:Emap; [|discriminate].
  intros H; inversion H; subst; simpl. now apply mapComments_severity in Emap.
Qed.

(** Away from [null] candidates the parser does what section 4.3 says: with
    a string summary, the result keeps the summary and exactly the shaped
    candidates, in order, each with its own file, line and body. *)
Lemma tryParseReview_keeps_shaped (cleaned summary : jsstring)
    (parsed : json) :
  JSON_parse cleaned = Some parsed ->
  getProperty parsed (lit "summary") = Some (Some (JString summary)) ->
  Forall (fun c => c <> JNull) (candidates parsed) ->
  exists rcs,
    tryParseReview cleaned = Some (ReviewResult.mk summary rcs) /\
    Forall2 recordOf (filter shaped (candidates parsed)) rcs.
Proof.
  intros Hparse Hsummary Hnonull. unfold tryParseReview.
  rewrite Hparse, Hsummary. fold (candidates parsed).
  rewrite (filterComments_no_null _ Hnonull).
  destruct (mapComments_shaped (filter shaped (candidates parsed)))
    as (rcs & Hmap & Hrec).
  { apply Forall_forall. intros c Hin. now apply filter_In in Hin. }
  exists rcs. now rewrite Hmap.
Qed.

(** A [null] among the candidates sends the whole answer to the fallback. *)
Lemma parseReviewResponse_null_falls_back (content : jsstring)
    (parsed : json) :
  JSON_parse (cleanResponse content) = Some parsed ->
  In JNull (candidates parsed) ->
  parseReviewResponse content = ReviewResult.mk content [].
Proof.
  intros Hparse Hnull. unfold parseReviewResponse, tryParseReview.
  rewrite Hparse.
  destruct (getProperty parsed (lit "summary")) as [[[| | |s| |]|]|];
    try reflexivity.
  fold (candidates parsed). now rewrite (filterComments_null _ Hnull).
Qed.

(** C3, as the code has it. [parseReviewResponse] returns a result for every
    text, and every comment of the result carries one of the three
    severities. When [JSON.parse] throws on the cleaned text, or the decoded
    value has no string summary, the result has no comments and its summary
    is the text exactly as it was received, white space and fence
    included. The text "not json at all" yields itself as summary and no
    comments. *)
Theorem parseReviewResponse_fallback :
  forall content : jsstring,
    Forall (fun rc => In (ReviewComment.severity rc) allowedSeverities)
           (ReviewResult.comments (parseReviewResponse content)) /\
    (JSON_parse (cleanResponse content) = None ->
     parseReviewResponse content = ReviewResult.mk content []) /\
    (forall parsed,
       JSON_parse (cleanResponse content) = Some parsed ->
       (forall s, getProperty parsed (lit "summary")
                  <> Some (Some (JString s))) ->
       parseReviewResponse content = ReviewResult.mk content []) /\
    parseReviewResponse (lit "not json at all") =
    ReviewResult.mk (lit "not json at all") [].
Proof.
  intros content. unfold parseReviewResponse.
  split; [|split; [|split]].
  - destruct (tryParseReview (cleanResponse content)) as [r|] eqn:E.
    + now apply tryParseReview_severity in E.
    + constructor.
  - intros Hfail. unfold tryParseReview. now rewrite Hfail.
  - intros parsed Hparse Hsummary. unfold tryParseReview. rewrite Hparse.
    destruct (getProperty parsed (lit "summary")) as [[[| | |s| |]|]|];
      try reflexivity.
    now destruct (Hsummary s).
  - vm_compute. reflexivity.
Qed.

(** C8 at the failing input. The answer decodes, its summary is the string
    "x", its second candidate has a string file, a numeric line and a string
    body; the first candidate is [null], on which the filter throws: the
    result is the fallback, with no comment and the raw answer as summary. *)
Theorem parseReviewResponse_null_candidate :
  (exists parsed second,
     JSON_parse (cleanResponse nullCandidateAnswer) = Some parsed /\
     getProperty parsed (lit "summary") = Some (Some (JString (lit "x"))) /\
     candidates parsed = [JNull; second] /\ shaped second = true) /\
  parseReviewResponse nullCandidateAnswer =
  ReviewResult.mk nullCandidateAnswer [].
Proof.
  split.
  - eexists _, _. vm_compute. repeat split; reflexivity.
  - vm_compute. reflexivity.
Qed.

(** Spec, section 8: the comment whose line is a string is dropped and the
    summary is kept; the plain answer keeps its summary. *)
Example parseReviewResponse_examples :
  parseReviewResponse badLineAnswer = ReviewResult.mk (lit "x") [] /\
  parseReviewResponse okAnswer = ReviewResult.mk (lit "ok") [].
Proof. split; vm_compute; reflexivity. Qed.

(** ** Fenced answers *)

Lemma startsWith_app (p s : jsstring) : startsWith p (p ++ s) = true.
Proof.
  induction p as [|x p IH]; simpl; [reflexivity|].
  now rewrite N.eqb_refl, IH.
Qed.

(** A text between two fences has nothing to trim. *)
Lemma trim_fenced (inner : jsstring) :
  trim (fence ++ inner ++ fence) = fence ++ inner ++ fence.
Proof.
  unfold trim.
  change (trimStart (fence ++ inner ++ fence)) with (fence ++ inner ++ fence).
  rewrite app_assoc, rev_app_distr.
  change (trimStart (rev fence ++ rev (fence ++ inner)))
    with (rev fence ++ rev (fence ++ inner)).
  now rewrite <- rev_app_distr, rev_involutive, <- app_assoc.
Qed.

Lemma stripClosingFence_line (text : jsstring) :
  stripClosingFence (text ++ nl ++ fence) = text.
Proof.
  unfold stripClosingFence, endsWith.
  rewrite (rev_app_distr text (nl ++ fence)), startsWith_app, length_app.
  change (length (nl ++ fence)) with 4.
  rewrite Nat.add_sub, firstn_app, Nat.sub_diag, firstn_all. simpl.
  apply app_nil_r.
Qed.

(** The cleaning step takes a text out of a fence tagged json, and out of a
    fence without a tag. *)
Lemma cleanResponse_wrap_json (text : jsstring) :
  cleanResponse (wrapInFence (lit "json") text) = text.
Proof.
  unfold cleanResponse, wrapInFence.
  replace (fence ++ lit "json" ++ nl ++ text ++ nl ++ fence)
    with (fence ++ (lit "json" ++ nl ++ text ++ nl) ++ fence)
    by now rewrite <- !app_assoc.
  rewrite trim_fenced, startsWith_app.
  replace (fence ++ (lit "json" ++ nl ++ text ++ nl) ++ fence)
    with (fence ++ lit "json" ++ nl ++ text ++ nl ++ fence)
    by now rewrite <- !app_assoc.
  change (stripOpeningFence (fence ++ lit "json" ++ nl ++ text ++ nl ++ fence))
    with (text ++ nl ++ fence).
  apply stripClosingFence_line.
Qed.

Lemma cleanResponse_wrap_plain (text : jsstring) :
  cleanResponse (wrapInFence [] text) = text.
Proof.
  unfold cleanResponse, wrapInFence.
  replace (fence ++ [] ++ nl ++ text ++ nl ++ fence)
    with (fence ++ (nl ++ text ++ nl) ++ fence)
    by now rewrite <- !app_assoc.
  rewrite trim_fenced, startsWith_app.
  replace (fence ++ (nl ++ text ++ nl) ++ fence)
    with (fence ++ nl ++ text ++ nl ++ fence)
    by now rewrite <- !app_assoc.
  change (stripOpeningFence (fence ++ nl ++ text ++ nl ++ fence))
    with (text ++ nl ++ fence).
  apply stripClosingFence_line.
Qed.

(** ** White space around JSON text *)

(** The code units [trim] removes are the four of JSON white space, two
    controls, and code units from U+00A0 on. *)
Lemma js_whitespace_cases (w : N) :
  is_js_whitespace w = true ->
  (w = 9 \/ w = 10 \/ w = 13 \/ w = 32 \/ w = 11 \/ w = 12 \/ 160 <= w)%N.
Proof.
  unfold is_js_whitespace.
  rewrite !orb_true_iff, !andb_true_iff, !N.eqb_eq, !N.leb_le. lia.
Qed.

(** Between tokens the scanner passes JSON white space and stops at any
    other code unit that [trim] removes. *)
Lemma startToken_whitespace (w : N) (toks : list Token) :
  is_js_whitespace w = true ->
  startToken w toks =
  (if is_json_ws w then Between else Stopped, toks).
Proof.
  intros Hw. apply js_whitespace_cases in Hw.
  destruct Hw as [-> | [-> | [-> | [-> | [-> | [-> | Hhigh]]]]]];
    try reflexivity.
  unfold startToken, is_json_ws, is_digit. high_unit w Hhigh. reflexivity.
Qed.

Lemma scan_stopped (s : jsstring) (toks : list Token) :
  fold_left scanStep s (Stopped, toks) = (Stopped, toks).
Proof. induction s as [|c s IH]; [reflexivity | exact IH]. Qed.

Lemma scan_whitespace_front (w : N) (s : jsstring) :
  is_js_whitespace w = true ->
  scan (w :: s) = if is_json_ws w then scan s else None.
Proof.
  intros Hw. unfold scan. simpl fold_left.
  rewrite (startToken_whitespace w [] Hw).
  destruct (is_json_ws w); [reflexivity|]. now rewrite scan_stopped.
Qed.

Lemma startToken_expectsLetters (c : N) (toks : list Token) :
  expectsLetters (startToken c toks).
Proof.
  unfold startToken, expectsLetters.
  repeat match goal with
         | |- context [if ?b then _ else _] => destruct b
         end; simpl; auto; repeat constructor.
Qed.

Lemma scanStep_expectsLetters (st : Mode * list Token) (c : N) :
  expectsLetters st -> expectsLetters (scanStep st c).
Proof.
  destruct st as [mode toks]. unfold expectsLetters. simpl fst.
  destruct mode as [|expected tok|acc|acc|acc hex|phase a|]; simpl scanStep;
    intros Hinv.
  - apply startToken_expectsLetters.
  - destruct expected as [|e rest]; [exact I|].
    destruct (N.eqb c e); [|exact I].
    destruct rest; [exact I|]. simpl. now inversion Hinv.
  - repeat match goal with
           | |- context [if ?b then _ else _] => destruct b
           end; exact I.
  - destruct (N.eqb c 117); [exact I|]. now destruct (escaped c).
  - destruct (hex_value c); [|exact I].
    destruct hex as [|? [|? [|? [|? ?]]]]; exact I.
  - unfold stepNumber.
    destruct phase;
      repeat match goal with
             | |- context [if ?b then _ else _] => destruct b
             end; try exact I; apply startToken_expectsLetters.
  - exact I.
Qed.

Lemma scan_expectsLetters (s : jsstring) (st : Mode * list Token) :
  expectsLetters st -> expectsLetters (fold_left scanStep s st).
Proof.
  revert st; induction s as [|c s IH]; intros st Hst; [exact Hst|].
  simpl. apply IH. now apply scanStep_expectsLetters.
Qed.

(** A text that ends with a code unit that [trim] removes has tokens only
    if it has the same tokens without that code unit. *)
Lemma scanEnd_whitespace_back (st : Mode * list Token) (w : N)
    (ts : list Token) :
  expectsLetters st ->
  is_js_whitespace w = true ->
  scanEnd (scanStep st w) = Some ts -> scanEnd st = Some ts.
Proof.
  intros Hinv Hw.
  destruct st as [mode toks]. unfold expectsLetters in Hinv. simpl in Hinv.
  assert (Hstart : forall toks',
             startToken w toks'
             = (if is_json_ws w then Between else Stopped, toks'))
    by (intros; now apply startToken_whitespace).
  assert (Hunit : (w = 9 \/ w = 10 \/ w = 13 \/ w = 32 \/ w = 11 \/ w = 12
                   \/ 160 <= w)%N) by now apply js_whitespace_cases.
  destruct mode as [|expected tok|acc|acc|acc hex|phase a|]; simpl scanStep.
  - rewrite Hstart. now destruct (is_json_ws w).
  - destruct expected as [|e rest]; [discriminate|].
    inversion Hinv as [|? ? He _]; subst.
    destruct (N.eqb_spec w e) as [-> | _]; [congruence | discriminate].
  - destruct Hunit as [-> | [-> | [-> | [-> | [-> | [-> | Hhigh]]]]]];
      try discriminate.
    high_unit w Hhigh. discriminate.
  - unfold escaped.
    destruct Hunit as [-> | [-> | [-> | [-> | [-> | [-> | Hhigh]]]]]];
      try discriminate.
    high_unit w Hhigh. discriminate.
  - assert (Hhex : hex_value w = None).
    { unfold hex_value, is_digit.
      destruct Hunit as [-> | [-> | [-> | [-> | [-> | [-> | Hhigh]]]]]];
        try reflexivity.
      high_unit w Hhigh. reflexivity. }
    rewrite Hhex. discriminate.
  - assert (Hnum : stepNumber phase a w toks =
                   match phase with
                   | AfterZero | InInt | InFrac | InExp =>
                       (if is_json_ws w then Between else Stopped,
                        TNumber (numberOf a) :: toks)
                   | _ => (Stopped, toks)
                   end).
    { unfold stepNumber. rewrite Hstart. unfold is_digit, is_e.
      destruct Hunit as [-> | [-> | [-> | [-> | [-> | [-> | Hhigh]]]]]];
        try (destruct phase; reflexivity).
      high_unit w Hhigh. destruct phase; reflexivity. }
    rewrite Hnum.
    destruct phase; try discriminate; now destruct (is_json_ws w).
  - discriminate.
Qed.

Lemma scan_whitespace_back (s : jsstring) (w : N) (ts : list Token) :
  is_js_whitespace w = true ->
  scan (s ++ [w]) = Some ts -> scan s = Some ts.
Proof.
  unfold scan. rewrite fold_left_app. simpl fold_left.
  intros Hw. apply scanEnd_whitespace_back; [|exact Hw].
  now apply scan_expectsLetters.
Qed.

(** Trimming a text that has tokens leaves its tokens as they are. *)
Lemma scan_trimStart (s : jsstring) (ts : list Token) :
  scan s = Some ts -> scan (trimStart s) = Some ts.
Proof.
  induction s as [|c s IH]; [trivial|]. simpl.
  destruct (is_js_whitespace c) eqn:Hc; [|trivial].
  rewrite (scan_whitespace_front c s Hc).
  destruct (is_json_ws c); [exact IH | discriminate].
Qed.

Lemma scan_trimEnd (t : jsstring) (ts : list Token) :
  scan (rev t) = Some ts -> scan (rev (trimStart t)) = Some ts.
Proof.
  induction t as [|c t IH]; [trivial|]. simpl.
  destruct (is_js_whitespace c) eqn:Hc; [|trivial].
  intros H. apply IH. exact (scan_whitespace_back (rev t) c ts Hc H).
Qed.

Lemma scan_trim (s : jsstring) (ts : list Token) :
  scan s = Some ts -> scan (trim s) = Some ts.
Proof.
  intros H. unfold trim. apply scan_trimEnd. rewrite rev_involutive.
  now apply scan_trimStart.
Qed.

(** A text that starts with a fence has no tokens. *)
Lemma scan_fence (s : jsstring) : startsWith fence s = true -> scan s = None.
Proof.
  destruct s as [|c s]; [discriminate|].
  change (startsWith fence (c :: s))
    with (N.eqb 96 c && startsWith [96; 96]%N s).
  intros H. apply andb_true_iff in H as [Hc _].
  apply N.eqb_eq in Hc. subst c. unfold scan. simpl fold_left.
  change (startToken 96 []) with (Stopped, @nil Token).
  now rewrite scan_stopped.
Qed.

(** The cleaning step changes nothing for [JSON.parse] on a text that
    [JSON.parse] decodes as it stands. *)
Lemma JSON_parse_cleanResponse (text : jsstring) (v : json) :
  JSON_parse text = Some v -> JSON_parse (cleanResponse text) = Some v.
Proof.
  unfold JSON_parse. destruct (scan text) as [ts|] eqn:Hscan; [|discriminate].
  apply scan_trim in Hscan. intros Hparse.
  unfold cleanResponse.
  destruct (startsWith fence (trim text)) eqn:Hfence.
  - apply scan_fence in Hfence. congruence.
  - now rewrite Hscan.
Qed.

Lemma tryParseReview_cleanResponse (text : jsstring) (r : ReviewResult.t) :
  tryParseReview text = Some r ->
  tryParseReview (cleanResponse text) = Some r.
Proof.
  unfold tryParseReview.
  destruct (JSON_parse text) as [v|] eqn:Hv; [|discriminate].
  now rewrite (JSON_parse_cleanResponse text v Hv).
Qed.

(** What parsing a fenced text yields, for the tag json and for no tag: the
    decoding of the text inside, or the fallback with the fenced text as
    summary. *)
Lemma parseReviewResponse_wrap (tag text : jsstring) :
  tag = lit "json" \/ tag = [] ->
  parseReviewResponse (wrapInFence tag text) =
  match tryParseReview text with
  | Some r => r
  | None => ReviewResult.mk (wrapInFence tag text) []
  end.
Proof.
  unfold parseReviewResponse.
  intros [-> | ->];
    now rewrite ?cleanResponse_wrap_json, ?cleanResponse_wrap_plain.
Qed.

(** C9, as the code has it. The opening fence may carry the tag json or no
    tag. For a text that [JSON.parse] decodes as it stands and that yields a
    review (a string summary, no [null] candidate), parsing the text inside
    such a fence yields the same result as parsing the text itself. *)
Theorem parseReviewResponse_fenced :
  forall (text : jsstring) (r : ReviewResult.t),
    tryParseReview text = Some r ->
    parseReviewResponse (wrapInFence (lit "json") text)
    = parseReviewResponse text /\
    parseReviewResponse (wrapInFence [] text) = parseReviewResponse text.
Proof.
  intros text r Hdecode.
  rewrite !parseReviewResponse_wrap by auto.
  unfold parseReviewResponse.
  rewrite (tryParseReview_cleanResponse text r Hdecode), Hdecode.
  now split.
Qed.

(* ========================================================================= *)
(** * Further properties *)

(** ** The webhook *)


(** X2. The token check passes exactly when no secret is configured, or the
    configured secret is the empty string, or the header carries the
    secret. *)
Theorem verifyWebhookToken_true_iff :
  forall headerToken secret : option jsstring,
    verifyWebhookToken headerToken secret = true <->
    secret = None \/ secret = Some [] \/ headerToken = secret.
Proof.
  intros headerToken [[|c sec]|]; simpl; try tauto.
  destruct headerToken as [tok|].
  - rewrite str_eqb_eq. split.
    + intros ->. auto.
    + intros [H | [H | H]]; try discriminate. now inversion H.
  - split; [discriminate | intros [H | [H | H]]; discriminate].
Qed.

(** ** The configuration *)

Lemma requireEnv_missing (env : Env) (name : jsstring) :
  requireEnv env name =
  if missing env name
  then Throw (lit "Missing required environment variable: " ++ name)
  else Ok (nullish (env name) []).
Proof.
  unfold requireEnv, missing. now destruct (env name) as [[|c v]|].
Qed.

(** X3. [loadConfig] returns a configuration exactly when none of the four
    required variables is missing or empty; otherwise it throws the error
    that names the first of them, in the order GITLAB_URL, GITLAB_TOKEN,
    GITLAB_BOT_USERNAME, GITHUB_TOKEN, that is. *)
Theorem loadConfig_required :
  forall env : Env,
    match find (missing env) requiredVariables with
    | Some name =>
        loadConfig env =
        Throw (lit "Missing required environment variable: " ++ name)
    | None => exists config, loadConfig env = Ok config
    end.
Proof.
  intros env. unfold loadConfig, requiredVariables. simpl find.
  rewrite !requireEnv_missing.
  destruct (missing env (lit "GITLAB_URL")); [reflexivity|].
  destruct (missing env (lit "GITLAB_TOKEN")); [reflexivity|].
  destruct (missing env (lit "GITLAB_BOT_USERNAME")); [reflexivity|].
  destruct (missing env (lit "GITHUB_TOKEN")); [reflexivity|].
  eexists. reflexivity.
Qed.

Lemma dropSlashes_spec (r : jsstring) :
  exists slashes,
    r = slashes ++ dropSlashes r /\ Forall (fun c => c = 47%N) slashes /\
    startsWith [47%N] (dropSlashes r) = false.
Proof.
  induction r as [|c r (slashes & Hr & Hall & Hstart)].
  - now exists [].
  - simpl. destruct (N.eqb_spec c 47) as [-> | Hc].
    + exists (47%N :: slashes). simpl. rewrite <- Hr. auto.
    + exists []. repeat split; auto.
      change (N.eqb 47 c && true = false).
      assert (H47 : N.eqb 47 c = false) by (apply N.eqb_neq; congruence).
      now rewrite H47.
Qed.

(** X4. The GitLab URL of a loaded configuration is the value of GITLAB_URL
    without the slashes it ends with: it never ends with a slash, so the
    API base the client builds from it has no doubled slash. *)
Theorem loadConfig_gitlabUrl :
  forall (env : Env) (config : Config.t),
    loadConfig env = Ok config ->
    exists slashes,
      env (lit "GITLAB_URL") = Some (Config.gitlabUrl config ++ slashes) /\
      Forall (fun c => c = 47%N) slashes /\
      endsWith [47%N] (Config.gitlabUrl config) = false.
Proof.
  intros env config. unfold loadConfig, requireEnv.
  destruct (env (lit "GITLAB_URL")) as [[|c url]|]; try discriminate.
  destruct (env (lit "GITLAB_TOKEN")) as [[|? ?]|]; try discriminate.
  destruct (env (lit "GITLAB_BOT_USERNAME")) as [[|? ?]|]; try discriminate.
  destruct (env (lit "GITHUB_TOKEN")) as [[|? ?]|]; try discriminate.
  intros H; inversion H; subst; clear H. simpl Config.gitlabUrl.
  unfold stripTrailingSlashes, endsWith.
  destruct (dropSlashes_spec (rev (c :: url))) as (slashes & Hr & Hall & Hs).
  exists (rev slashes). rewrite rev_involutive. repeat split.
  - rewrite <- rev_app_distr, <- Hr, rev_involutive. reflexivity.
  - now apply Forall_rev.
  - exact Hs.
Qed.

(** ** The parser *)

(** X5. When the cleaned answer decodes to a value with a string summary and no
    candidate is [null], the result has that summary and, in order, one
    comment for each candidate with a string file, a numeric line and a
    string body, built from the candidate's own file, line and body, with
    the candidate's severity if it is one of the three and "info"
    otherwise. *)
Theorem parseReviewResponse_keeps_shaped :
  forall (content summary : jsstring) (parsed : json),
    JSON_parse (cleanResponse content) = Some parsed ->
    getProperty parsed (lit "summary") = Some (Some (JString summary)) ->
    Forall (fun c => c <> JNull) (candidates parsed) ->
    exists rcs,
      parseReviewResponse content = ReviewResult.mk summary rcs /\
      Forall2 recordOf (filter shaped (candidates parsed)) rcs.
Proof.
  intros content summary parsed Hparse Hsummary Hnonull.
  destruct (tryParseReview_keeps_shaped _ _ _ Hparse Hsummary Hnonull)
    as (rcs & Htry & Hrec).
  exists rcs. unfold parseReviewResponse. now rewrite Htry.
Qed.

(** X6. When the cleaned answer decodes to a value with a string summary whose
    [comments] is missing or is no array, the result keeps the summary and
    has no comments: the answer is not sent to the fallback. *)
Theorem parseReviewResponse_comments_not_array :
  forall (content summary : jsstring) (parsed : json),
    JSON_parse (cleanResponse content) = Some parsed ->
    getProperty parsed (lit "summary") = Some (Some (JString summary)) ->
    (forall cs, getProperty parsed (lit "comments")
                <> Some (Some (JArray cs))) ->
    parseReviewResponse content = ReviewResult.mk summary [].
Proof.
  intros content summary parsed Hparse Hsummary Hnoarray.
  unfold parseReviewResponse, tryParseReview. rewrite Hparse, Hsummary.
  destruct (getProperty parsed (lit "comments")) as [[[| | | |cs|]|]|];
    try reflexivity.
  now destruct (Hnoarray cs).
Qed.

(** X7. An answer that [JSON.parse] decodes as it stands is parsed as it
    stands: trimming and the removal of fences leave it alone, so the
    result is the review its text decodes to. *)
Theorem parseReviewResponse_plain_json :
  forall (text : jsstring) (r : ReviewResult.t),
    tryParseReview text = Some r -> parseReviewResponse text = r.
Proof.
  intros text r H. unfold parseReviewResponse.
  now rewrite (tryParseReview_cleanResponse text r H).
Qed.

(** ** The comment poster, for every world *)

Section PostReviewInvariants.

Variable Number_toString : JsNumber.t -> jsstring.
Variable toUpperCase : jsstring -> jsstring.
Variable w : World.
Variables projectId mrIid : Z.
Variable diffVersion : MergeRequestDiffVersionDetail.t.

Lemma findDiffFile_some (comment : ReviewComment.t) (d : DiffFile.t) :
  findDiffFile diffVersion comment = Some d ->
  In d (MergeRequestDiffVersionDetail.diffs diffVersion) /\
  (DiffFile.new_path d = ReviewComment.file comment \/
   DiffFile.old_path d = ReviewComment.file comment).
Proof.
  unfold findDiffFile. intros H. apply find_some in H as [Hin Hd].
  split; [assumption|].
  apply orb_true_iff in Hd as [Hd | Hd]; apply str_eqb_eq in Hd; auto.
Qed.

Lemma attemptsFor_postsTo (comment : ReviewComment.t) (calls : list Call) :
  attemptsFor Number_toString toUpperCase projectId mrIid diffVersion
              comment calls ->
  Forall (postsTo projectId mrIid diffVersion) calls /\
  1 <= length calls <= 2.
Proof.
  assert (Hfirst : postsTo projectId mrIid diffVersion
                     (firstAttempt Number_toString toUpperCase projectId
                                   mrIid diffVersion comment)).
  { unfold firstAttempt.
    destruct (findDiffFile diffVersion comment) as [d|] eqn:E; simpl.
    - apply findDiffFile_some in E as [Hin _].
      repeat split; auto; [now exists d | discriminate].
    - now split. }
  assert (Hfallback : postsTo projectId mrIid diffVersion
                        (fallbackAttempt Number_toString projectId mrIid
                                         comment)) by (simpl; now split).
  intros [-> | ->]; split; simpl; try lia; repeat constructor; assumption.
Qed.

Lemma attempts_postsTo (comments : list ReviewComment.t)
    (calls : list (list Call)) :
  Forall2 (attemptsFor Number_toString toUpperCase projectId mrIid
                       diffVersion) comments calls ->
  Forall (postsTo projectId mrIid diffVersion) (concat calls) /\
  length comments <= length (concat calls) <= 2 * length comments.
Proof.
  induction 1 as [|c cs comments calls Hc _ [IHall IHlen]]; simpl.
  - split; [constructor | lia].
  - apply attemptsFor_postsTo in Hc as [Hall Hlen].
    split; [now apply Forall_app|]. rewrite length_app. lia.
Qed.

(** X8. Whatever GitLab answers, [postReview] makes at least one call for each
    comment and at most two, and one for the summary; every call is a post
    to the given merge request, and every inline discussion among them is
    anchored on the base, head and start commit of the diff version, on the
    old and new path of one of its files, and on a line of the new side. *)
Theorem postReview_calls :
  forall (summary : jsstring) (comments : list ReviewComment.t)
         (st : RunState),
  exists calls,
    fst (postReview Number_toString toUpperCase w projectId mrIid summary
                    comments diffVersion st) = after st calls /\
    length comments + 1 <= length calls <= 2 * length comments + 1 /\
    Forall (postsTo projectId mrIid diffVersion) calls.
Proof.
  intros summary comments st.
  destruct (postComments_all Number_toString toUpperCase w projectId mrIid
              diffVersion comments (0, 0)%Z st)
    as (calls & counters & Hloop & Hcalls & _).
  apply attempts_postsTo in Hcalls as [Hall Hlen].
  exists (concat calls ++ [PostNote projectId mrIid summary]).
  rewrite (postReview_unfold _ _ _ _ _ _ summary comments st _ _ Hloop).
  simpl fst. rewrite after_after, length_app. simpl length.
  split; [reflexivity|]. split; [lia|].
  apply Forall_app. split; [assumption|]. repeat constructor.
Qed.

(** When GitLab accepts every general note, each turn of the loop adds one
    to [posted] and leaves [failed] as it was: a refused first attempt is
    recovered by its fallback. *)
Lemma postComments_notes_accepted (comments : list ReviewComment.t) :
  (forall t p i b, postNote w t p i b = Ok tt) ->
  forall (counters : Z * Z) (st : RunState),
  exists st1,
    postComments Number_toString toUpperCase w projectId mrIid diffVersion
                 comments counters st =
    (st1, Ok (fst counters + Z.of_nat (length comments), snd counters)%Z).
Proof.
  intros Hnotes.
  induction comments as [|c cs IH]; intros counters st0.
  - exists st0. simpl. rewrite Z.add_0_r. now destruct counters.
  - rewrite postComments_cons, postComment_turn.
    assert (Hfb : forall t,
               answerTo w t (fallbackAttempt Number_toString projectId
                                             mrIid c) = Ok tt)
      by (intros; apply Hnotes).
    destruct (answerTo w (trace st0) _).
    + destruct (IH (fst counters + 1, snd counters)%Z
                   (after st0
                      [firstAttempt Number_toString toUpperCase projectId
                                    mrIid diffVersion c]))
        as (st1 & ->).
      exists st1. cbn [fst snd length]. rewrite Nat2Z.inj_succ.
      do 3 f_equal. lia.
    + rewrite Hfb.
      destruct (IH (fst counters + 1, snd counters + 1 - 1)%Z
                   (after st0
                      [firstAttempt Number_toString toUpperCase projectId
                                    mrIid diffVersion c;
                       fallbackAttempt Number_toString projectId mrIid c]))
        as (st1 & ->).
      exists st1. cbn [fst snd length]. rewrite Nat2Z.inj_succ.
      do 2 f_equal. f_equal; lia.
Qed.

(** X9. General notes are the safety net: in a world where GitLab accepts
    every general note, whatever it answers to the inline discussions,
    [postReview] returns with every comment counted as posted and none as
    failed. *)
Theorem postReview_notes_accepted :
  forall (summary : jsstring) (comments : list ReviewComment.t)
         (st : RunState),
    (forall t p i b, postNote w t p i b = Ok tt) ->
    exists st',
      postReview Number_toString toUpperCase w projectId mrIid summary
                 comments diffVersion st =
      (st', Ok (PostingOutcome.mk (Z.of_nat (length comments)) 0)).
Proof.
  intros summary comments st Hnotes.
  destruct (postComments_notes_accepted comments Hnotes (0, 0)%Z st)
    as (st1 & H1).
  eexists.
  rewrite (postReview_unfold _ _ _ _ _ _ summary comments st _ _ H1).
  rewrite Hnotes. reflexivity.
Qed.

End PostReviewInvariants.

(** ** The handler, for every world *)

Lemma inStageOrder_same (k : nat) (t : Trace) :
  Forall (fun c => stageOf c = k) t -> inStageOrder t.
Proof.
  induction 1 as [|c t Hc Hall IH]; simpl; [exact I|].
  split; [|exact IH].
  eapply Forall_impl; [|exact Hall]. simpl. intros; lia.
Qed.

Lemma inStageOrder_app (k : nat) (a b : Trace) :
  inStageOrder a -> inStageOrder b ->
  Forall (fun c => stageOf c <= k) a -> Forall (fun c => k <= stageOf c) b ->
  inStageOrder (a ++ b).
Proof.
  intros Ha Hb Hlow Hhigh. induction a as [|c a IH]; simpl; [exact Hb|].
  destruct Ha as [Hc Ha]. inversion Hlow as [|? ? Hck Hlow']; subst.
  split; [|now apply IH].
  apply Forall_app. split; [exact Hc|].
  eapply Forall_impl; [|exact Hhigh]. simpl. intros; lia.
Qed.

Lemma cleanupCalls_app (a b : Trace) :
  cleanupCalls (a ++ b) = cleanupCalls a + cleanupCalls b.
Proof. unfold cleanupCalls. now rewrite filter_app, length_app. Qed.

Lemma cleanupCalls_none (t : Trace) :
  Forall (fun c => stageOf c <= 3) t -> cleanupCalls t = 0.
Proof.
  induction 1 as [|c t Hc _ IH]; [reflexivity|].
  change (c :: t) with ([c] ++ t). rewrite cleanupCalls_app, IH.
  destruct c; simpl in *; try reflexivity; lia.
Qed.

Lemma postsTo_stage (projectId mrIid : Z)
    (diffVersion : MergeRequestDiffVersionDetail.t) (c : Call) :
  postsTo projectId mrIid diffVersion c -> stageOf c = 3.
Proof. destruct c; simpl; tauto. Qed.

(** What the policy counts: every comment once, as posted or as failed. *)
Lemma fallbackPolicy_counts (Number_toString : JsNumber.t -> jsstring)
    (toUpperCase : jsstring -> jsstring) (w : World) (projectId mrIid : Z)
    (diffVersion : MergeRequestDiffVersionDetail.t)
    (comments : list ReviewComment.t) :
  forall t : Trace,
    let outcome :=
      snd (fallbackPolicy Number_toString toUpperCase w projectId mrIid
                          diffVersion t comments) in
    (PostingOutcome.posted outcome + PostingOutcome.failed outcome
     = Z.of_nat (length comments))%Z /\
    (0 <= PostingOutcome.posted outcome)%Z /\
    (0 <= PostingOutcome.failed outcome)%Z.
Proof.
  induction comments as [|c rest IH]; intros t; cbv zeta.
  - simpl. lia.
  - cbn [fallbackPolicy snd PostingOutcome.posted PostingOutcome.failed
         length].
    rewrite Nat2Z.inj_succ.
    set (one := commentPolicy Number_toString toUpperCase w projectId mrIid
                              diffVersion t c).
    assert (Hone : (PostingOutcome.posted (snd one)
                    + PostingOutcome.failed (snd one) = 1)%Z /\
                   (0 <= PostingOutcome.posted (snd one))%Z /\
                   (0 <= PostingOutcome.failed (snd one))%Z).
    { subst one. unfold commentPolicy.
      destruct (answerTo w t _); [simpl; lia|].
      destruct (answerTo w (t ++ _) _); simpl; lia. }
    destruct (IH (t ++ fst one)) as (Hsum & Hp & Hf).
    cbv zeta in Hsum, Hp, Hf. lia.
Qed.

Section HandlerInvariants.

Variable Number_toString : JsNumber.t -> jsstring.
Variable toUpperCase : jsstring -> jsstring.
Variable w : World.

(** Fetching the diffs makes calls of the first stage only. *)
Lemma getLatestDiffs_stage (projectId mrIid : Z) (st st1 : RunState)
    (r : result MergeRequestDiffVersionDetail.t) :
  getLatestDiffs Number_toString w projectId mrIid st = (st1, r) ->
  clone st1 = clone st /\
  exists calls,
    trace st1 = trace st ++ calls /\ Forall (fun c => stageOf c = 0) calls.
Proof.
  unfold getLatestDiffs, bind, getMergeRequestVersions,
    getMergeRequestVersionDetail, perform, throw.
  destruct (getVersions w (trace st) projectId mrIid) as [[|latest vs]|e];
    intros H; inversion H; subst; clear H; simpl; (split; [reflexivity|]).
  - exists [GetVersions projectId mrIid]. now repeat constructor.
  - exists [GetVersions projectId mrIid;
            GetVersionDetail projectId mrIid
              (MergeRequestDiffVersion.id latest)].
    rewrite <- app_assoc. now repeat constructor.
  - exists [GetVersions projectId mrIid]. now repeat constructor.
Qed.

(** The calls of [postReview] are posts. *)
Lemma postReview_posts (projectId mrIid : Z) (summary : jsstring)
    (comments : list ReviewComment.t)
    (diffVersion : MergeRequestDiffVersionDetail.t) (st : RunState) :
  exists posts,
    fst (postReview Number_toString toUpperCase w projectId mrIid summary
                    comments diffVersion st) = after st posts /\
    Forall (fun c => stageOf c = 3) posts.
Proof.
  destruct (postComments_all Number_toString toUpperCase w projectId mrIid
              diffVersion comments (0, 0)%Z st)
    as (calls & counters & Hloop & Hcalls & _).
  apply attempts_postsTo in Hcalls as [Hall _].
  exists (concat calls ++ [PostNote projectId mrIid summary]).
  rewrite (postReview_unfold _ _ _ _ _ _ summary comments st _ _ Hloop).
  simpl fst. rewrite after_after. split; [reflexivity|].
  apply Forall_app. split; [|now repeat constructor].
  eapply Forall_impl; [|exact Hall]. apply postsTo_stage.
Qed.

(** The [try] block of the handler, started with an empty trace: the calls
    that fetch the diffs, then either nothing, or one post, or the clone
    that failed, or the clone, the session with Copilot and posts. *)
Lemma reviewAndPost_shape (config : Config.t)
    (payload : MergeRequestWebhookPayload.t) (st1 : RunState)
    (r : result LambdaResult) :
  reviewAndPost Number_toString toUpperCase w config payload initialState
  = (st1, r) ->
  exists fetch work,
    trace st1 = fetch ++ work /\
    Forall (fun c => stageOf c = 0) fetch /\
    match clonedDir Number_toString w config payload with
    | Some dir =>
        clone st1 = Some dir /\
        exists session posts,
          work = cloneCall config payload :: session :: posts /\
          stageOf session = 2 /\ Forall (fun c => stageOf c = 3) posts
    | None =>
        clone st1 = None /\
        (work = [] \/
         exists c, work = [c] /\ (stageOf c = 1 \/ stageOf c = 3))
    end.
Proof.
  unfold clonedDir, reviewAndPost. unfold bind at 1.
  destruct (getLatestDiffs _ _ _ _ initialState) as [st0 [dv|e]] eqn:Hfetch;
    destruct (getLatestDiffs_stage _ _ _ _ _ Hfetch)
      as (Hclone & fetch & Htrace & Hfetch0);
    simpl in Hclone, Htrace.
  2:{ intros H; inversion H; subst st1 r; clear H.
      exists fetch, []. rewrite app_nil_r. auto. }
  destruct (MergeRequestDiffVersionDetail.diffs dv) as [|d ds].
  { unfold bind, postMergeRequestNote, perform, ret.
    destruct (postNote w (trace st0) _ _ noChangesNote);
      intros H; inversion H; subst st1 r; clear H; simpl;
      exists fetch, [PostNote
                       (GitLabProject.id
                          (MergeRequestWebhookPayload.project payload))
                       (MergeRequestAttributes.iid
                          (MergeRequestWebhookPayload.object_attributes
                             payload)) noChangesNote];
      rewrite Htrace; (split; [reflexivity|]); (split; [assumption|]);
      (split; [assumption|]); right; eexists; split; eauto. }
  unfold bind at 1, cloneRepository, perform.
  destruct (gitClone w (trace st0) _ _ _) as [dir|e].
  2:{ intros H; inversion H; subst st1 r; clear H.
      exists fetch, [cloneCall config payload]. simpl. rewrite Htrace.
      repeat split; auto. right. eexists; split; eauto. }
  unfold bind at 1, setClone. simpl trace.
  unfold bind at 1, reviewMergeRequest, bind at 1, perform. simpl trace.
  destruct (copilot w _ _) as [content|e].
  2:{ intros H; inversion H; subst st1 r; clear H.
      exists fetch, [cloneCall config payload;
                     Copilot (reviewOptions config payload dir dv)].
      simpl.
      rewrite Htrace, <- !app_assoc. repeat split; auto.
      eexists _, []. repeat split; auto. }
  unfold ret at 1. unfold bind at 1.
  match goal with
  | |- context [postReview ?n ?u ?w0 ?p ?i ?s ?cs ?dv0 ?st2] =>
      destruct (postReview_posts p i s cs dv0 st2) as (posts & Hposts & H3);
      destruct (postReview n u w0 p i s cs dv0 st2) as [st3 [outcome|e]]
  end; simpl in Hposts; subst st3;
    intros H; inversion H; subst st1 r; clear H;
    exists fetch, (cloneCall config payload
                   :: Copilot (reviewOptions config payload dir dv)
                   :: posts);
    unfold after; simpl; rewrite Htrace, <- !app_assoc; simpl;
    repeat split; auto; eexists _, posts; repeat split; auto.
Qed.

(** X10. Once the configuration is loaded and the body is decoded to a
    payload of the declared type, the handler always resolves with an
    answer, never with an exception; and it calls nothing outside unless the
    token check and the trigger gate have passed: a bad token is answered
    401 and an event that does not trigger a review 200, with no call
    made. *)
Theorem handler_always_answers :
  forall (config : Config.t) (webhookToken : option jsstring)
         (payload : MergeRequestWebhookPayload.t) (st : RunState),
  exists st' r,
    handler Number_toString toUpperCase w config webhookToken payload st
    = (st', Ok r) /\
    In (statusCode r) [200; 401; 500]%Z /\
    (verifyWebhookToken webhookToken (Config.gitlabWebhookSecret config)
     = false -> st' = st /\ r = Unauthorized) /\
    (verifyWebhookToken webhookToken (Config.gitlabWebhookSecret config)
     = true -> shouldTriggerReview payload config = false ->
     st' = st /\ r = EventIgnored).
Proof.
  intros config webhookToken payload st.
  destruct (verifyWebhookToken _ _) eqn:Hverify.
  2:{ exists st, Unauthorized. unfold handler. rewrite Hverify. simpl.
      repeat split; auto; discriminate. }
  destruct (shouldTriggerReview payload config) eqn:Htrigger.
  2:{ exists st, EventIgnored. unfold handler. rewrite Hverify, Htrigger.
      simpl. repeat split; auto; discriminate. }
  rewrite (handler_triggered _ _ _ _ _ _ _ Hverify Htrigger).
  destruct (reviewAndPost _ _ _ _ _ st) as [st1 [r|e]].
  - destruct (clone st1); eexists _, r; (split; [reflexivity|]);
      (split; [destruct r; simpl; auto|]); split; discriminate.
  - destruct (clone (after st1 _)); eexists _, _; (split; [reflexivity|]);
      (split; [simpl; auto|]); split; discriminate.
Qed.

(** X11. In every run that passed the token check and the trigger check,
    the calls come stage by stage: fetching the diffs, cloning, the session
    with Copilot, posting to the merge request, cleaning up; no call of an
    earlier stage follows a call of a later one. *)
Theorem handler_stage_order :
  forall (config : Config.t) (webhookToken : option jsstring)
         (payload : MergeRequestWebhookPayload.t),
    verifyWebhookToken webhookToken (Config.gitlabWebhookSecret config)
      = true ->
    shouldTriggerReview payload config = true ->
    inStageOrder
      (trace (fst (handler Number_toString toUpperCase w config webhookToken
                           payload initialState))).
Proof.
  intros config webhookToken payload Hverify Htrigger.
  rewrite (handler_triggered _ _ _ _ _ _ _ Hverify Htrigger).
  destruct (reviewAndPost _ _ _ _ _ initialState) as [st1 r] eqn:Hrun0.
  destruct (reviewAndPost_shape config payload st1 r Hrun0)
    as (fetch & work & Htrace & Hfetch & Hshape).
  assert (Hwork : inStageOrder work /\
                  Forall (fun c => 1 <= stageOf c <= 3) work).
  { destruct (clonedDir _ _ _ _).
    - destruct Hshape as (_ & session & posts & -> & H2 & H3).
      split.
      + simpl. rewrite H2. repeat split.
        * constructor; [lia|]. eapply Forall_impl; [|exact H3].
          simpl; intros; lia.
        * eapply Forall_impl; [|exact H3]. simpl; intros; lia.
        * now apply (inStageOrder_same 3).
      + constructor; [simpl; lia|]. constructor; [lia|].
        eapply Forall_impl; [|exact H3]. simpl; intros; lia.
    - destruct Hshape as (_ & [-> | (c & -> & Hc)]).
      + split; [exact I | constructor].
      + split; [simpl; auto | constructor; [lia | constructor]]. }
  destruct Hwork as [Hordered Hrange].
  assert (Hrun : forall tail,
             inStageOrder tail -> Forall (fun c => 3 <= stageOf c) tail ->
             inStageOrder ((fetch ++ work) ++ tail)).
  { intros tail Htail Hhigh.
    apply (inStageOrder_app 3); auto.
    - apply (inStageOrder_app 0); auto.
      + now apply (inStageOrder_same 0).
      + eapply Forall_impl; [|exact Hfetch]. simpl; intros; lia.
      + eapply Forall_impl; [|exact Hrange]. simpl; intros; lia.
    - apply Forall_app. split.
      + eapply Forall_impl; [|exact Hfetch]. simpl; intros; lia.
      + eapply Forall_impl; [|exact Hrange]. simpl; intros; lia. }
  destruct r as [a|e].
  - destruct (clone st1) as [dir|]; simpl fst.
    + unfold after. simpl trace. rewrite Htrace.
      apply Hrun; [simpl; auto|].
      apply Forall_cons; [simpl; lia | apply Forall_nil].
    + rewrite Htrace, <- (app_nil_r (fetch ++ work)).
      apply Hrun; [exact I | apply Forall_nil].
  - unfold after at 1 2. simpl clone.
    destruct (clone st1) as [dir|]; simpl fst; unfold after; simpl trace;
      rewrite Htrace, <- ?app_assoc.
    + rewrite (app_assoc fetch work). apply Hrun.
      * simpl. split.
        { apply Forall_cons; [simpl; lia | apply Forall_nil]. }
        split; [apply Forall_nil | exact I].
      * apply Forall_cons; [simpl; lia|].
        apply Forall_cons; [simpl; lia | apply Forall_nil].
    + rewrite (app_assoc fetch work). apply Hrun; [simpl; auto|].
      apply Forall_cons; [simpl; lia | apply Forall_nil].
Qed.

(** X12. The clone is removed exactly once, at the very end, in every run that
    got one, whatever happened after the clone and whatever the cleanup
    itself answers; a run that got no clone makes no cleanup call. *)
Theorem handler_cleans_up :
  forall (config : Config.t) (webhookToken : option jsstring)
         (payload : MergeRequestWebhookPayload.t),
    verifyWebhookToken webhookToken (Config.gitlabWebhookSecret config)
      = true ->
    shouldTriggerReview payload config = true ->
    match clonedDir Number_toString w config payload with
    | Some dir =>
        exists t,
          trace (fst (handler Number_toString toUpperCase w config
                              webhookToken payload initialState))
          = t ++ [Cleanup dir] /\
          cleanupCalls t = 0
    | None =>
        cleanupCalls
          (trace (fst (handler Number_toString toUpperCase w config
                               webhookToken payload initialState))) = 0
    end.
Proof.
  intros config webhookToken payload Hverify Htrigger.
  rewrite (handler_triggered _ _ _ _ _ _ _ Hverify Htrigger).
  destruct (reviewAndPost _ _ _ _ _ initialState) as [st1 r] eqn:Hrun0.
  destruct (reviewAndPost_shape config payload st1 r Hrun0)
    as (fetch & work & Htrace & Hfetch & Hshape).
  assert (Hnone : cleanupCalls (fetch ++ work) = 0).
  { apply cleanupCalls_none, Forall_app. split.
    - eapply Forall_impl; [|exact Hfetch]. simpl; intros; lia.
    - destruct (clonedDir _ _ _ _).
      + destruct Hshape as (_ & session & posts & -> & H2 & H3).
        constructor; [simpl; lia|]. constructor; [lia|].
        eapply Forall_impl; [|exact H3]. simpl; intros; lia.
      + destruct Hshape as (_ & [-> | (c & -> & Hc)]);
          [constructor | constructor; [lia | constructor]]. }
  destruct (clonedDir _ _ _ _) as [dir|].
  - destruct Hshape as (Hclone & _).
    destruct r as [a|e].
    + rewrite Hclone. simpl. exists (fetch ++ work). now rewrite Htrace.
    + unfold after at 1 2. simpl clone. rewrite Hclone. simpl.
      eexists. rewrite Htrace. split; [reflexivity|].
      now rewrite cleanupCalls_app, Hnone.
  - destruct Hshape as (Hclone & _).
    destruct r as [a|e].
    + rewrite Hclone. simpl. now rewrite Htrace.
    + unfold after at 1 2. simpl clone. rewrite Hclone. simpl.
      now rewrite Htrace, cleanupCalls_app, Hnone.
Qed.

(** X13. When the diffs are fetched and not empty, the clone is made and
    Copilot answers, the handler parses the answer and posts the review: it
    makes the posts of the fallback policy for the parsed comments, then the
    summary note, and GitLab's answer to the summary note decides the rest.
    Accepted, the cleanup follows and the answer is 200 "Review posted" with
    the number of parsed comments and what the policy counts as posted and
    as failed, however many failed.  Refused with an error, the failure
    note with that error follows, then the cleanup, and the answer is 500
    with that error.  Either way posted and failed are not negative and add
    up to the number of parsed comments. *)
Theorem handler_review_posted :
  forall (config : Config.t) (webhookToken : option jsstring)
         (payload : MergeRequestWebhookPayload.t) (st1 : RunState)
         (dv : MergeRequestDiffVersionDetail.t) (dir content : jsstring),
    verifyWebhookToken webhookToken (Config.gitlabWebhookSecret config)
      = true ->
    shouldTriggerReview payload config = true ->
    getLatestDiffs Number_toString w
      (GitLabProject.id (MergeRequestWebhookPayload.project payload))
      (MergeRequestAttributes.iid
         (MergeRequestWebhookPayload.object_attributes payload))
      initialState = (st1, Ok dv) ->
    MergeRequestDiffVersionDetail.diffs dv <> [] ->
    gitClone w (trace st1)
      (GitLabProject.http_url (MergeRequestWebhookPayload.project payload))
      (MergeRequestAttributes.source_branch
         (MergeRequestWebhookPayload.object_attributes payload))
      (Config.gitlabToken config) = Ok dir ->
    copilot w (trace st1 ++ [cloneCall config payload])
            (reviewOptions config payload dir dv) = Ok content ->
    let projectId :=
      GitLabProject.id (MergeRequestWebhookPayload.project payload) in
    let mrIid :=
      MergeRequestAttributes.iid
        (MergeRequestWebhookPayload.object_attributes payload) in
    let review := parseReviewResponse content in
    let summary := summaryBody Number_toString review in
    let session :=
      trace st1 ++ [cloneCall config payload;
                    Copilot (reviewOptions config payload dir dv)] in
    let posts :=
      fallbackPolicy Number_toString toUpperCase w projectId mrIid dv
                     session (ReviewResult.comments review) in
    handler Number_toString toUpperCase w config webhookToken payload
            initialState
    = match postNote w (session ++ fst posts) projectId mrIid summary with
      | Ok _ =>
          (mkState
             (session ++ fst posts
              ++ [PostNote projectId mrIid summary; Cleanup dir])
             (Some dir),
           Ok (ReviewPosted (length (ReviewResult.comments review))
                            (PostingOutcome.posted (snd posts))
                            (PostingOutcome.failed (snd posts))))
      | Throw e =>
          (mkState
             (session ++ fst posts
              ++ [PostNote projectId mrIid summary;
                  PostNote projectId mrIid (failureNote e); Cleanup dir])
             (Some dir),
           Ok (ReviewFailed e))
      end /\
    (PostingOutcome.posted (snd posts) + PostingOutcome.failed (snd posts)
     = Z.of_nat (length (ReviewResult.comments review)))%Z /\
    (0 <= PostingOutcome.posted (snd posts))%Z /\
    (0 <= PostingOutcome.failed (snd posts))%Z.
Proof.
  intros config webhookToken payload st1 dv dir content Hverify Htrigger
         Hfetch Hdiffs Hclone Hcopilot projectId mrIid review summary
         session posts.
  split; [|apply fallbackPolicy_counts].
  rewrite (handler_triggered _ _ _ _ _ _ _ Hverify Htrigger).
  unfold reviewAndPost. unfold bind at 1. rewrite Hfetch.
  destruct (getLatestDiffs_calls _ _ _ _ _ _ _ Hfetch) as (Hcl & _).
  simpl in Hcl.
  destruct (MergeRequestDiffVersionDetail.diffs dv) as [|d ds];
    [contradiction|].
  unfold bind at 1, cloneRepository, perform. rewrite Hclone.
  unfold bind at 1, setClone. simpl trace.
  unfold bind at 1, reviewMergeRequest, bind at 1, perform. simpl trace.
  unfold cloneCall, reviewOptions in *. rewrite Hcopilot.
  unfold ret at 1. unfold bind at 1.
  match goal with
  | |- context [postReview ?n ?u ?w0 ?p ?i ?s ?cs ?dv0 ?st2] =>
      rewrite (postReview_unfold n u w0 p i dv0 s cs st2 _ _
                 (postComments_policy n u w0 p i dv0 cs (0, 0)%Z st2))
  end.
  cbn [fst snd trace clone after]. rewrite !Z.add_0_l.
  subst posts session summary review projectId mrIid.
  rewrite <- !app_assoc. cbn [app].
  match goal with
  | |- context [postNote w ?t ?p ?i ?b] =>
      destruct (postNote w t p i b) as [u|e]
  end; unfold ret, after; cbn [fst snd trace clone];
    rewrite <- ?app_assoc; reflexivity.
Qed.

End HandlerInvariants.

(** ** The prompt *)







(** ** The CI job *)

Section CiInvariants.

Variable Number_toString : JsNumber.t -> jsstring.
Variable toUpperCase : jsstring -> jsstring.
Variable w : World.

(** The [try] block of the job: cloning comes first, so that a refused clone
    ends the block with nothing else done; after the clone, the block calls
    anything but the cleanup, and what it returns is an exit code. *)
Lemma ciReviewAndPost_shape (config : Config.t) (projectId mrIid : Z)
    (mrTitle mrDescription sourceBranch targetBranch projectUrl
     httpUrl : jsstring) (st1 : RunState) (r : result Z) :
  ciReviewAndPost Number_toString toUpperCase w config projectId mrIid
                  mrTitle mrDescription sourceBranch targetBranch
                  projectUrl httpUrl initialState = (st1, r) ->
  match r with
  | Ok code => code = 0%Z \/ code = 1%Z
  | Throw _ => True
  end /\
  match gitClone w [] httpUrl sourceBranch (Config.gitlabToken config) with
  | Ok dir =>
      clone st1 = Some dir /\
      exists t,
        trace st1
        = GitClone httpUrl sourceBranch (Config.gitlabToken config) :: t /\
        cleanupCalls t = 0
  | Throw e =>
      st1 = mkState
              [GitClone httpUrl sourceBranch (Config.gitlabToken config)]
              None /\
      r = Throw e
  end.
Proof.
  unfold ciReviewAndPost. unfold bind at 1, cloneRepository, perform.
  simpl trace. simpl clone.
  destruct (gitClone w [] httpUrl sourceBranch (Config.gitlabToken config))
    as [dir|e].
  2:{ intros H; inversion H; subst st1 r; clear H. auto. }
  unfold bind at 1, setClone. simpl trace. unfold bind at 1.
  match goal with
  | |- context [getLatestDiffs ?n ?w0 ?p ?i ?st] =>
      destruct (getLatestDiffs n w0 p i st) as [st0 [dv|e]] eqn:Hfetch
  end;
    destruct (getLatestDiffs_stage _ _ _ _ _ _ _ Hfetch)
      as (Hclone & fetch & Htrace & Hfetch0);
    simpl in Hclone, Htrace;
    assert (Hnone : cleanupCalls fetch = 0)
      by (apply cleanupCalls_none; eapply Forall_impl; [|exact Hfetch0];
          simpl; intros; lia).
  2:{ intros H; inversion H; subst st1 r; clear H.
      split; [exact I|]. split; [assumption|]. now exists fetch. }
  destruct (MergeRequestDiffVersionDetail.diffs dv) as [|d ds].
  { unfold bind, postMergeRequestNote, perform, ret.
    destruct (postNote w (trace st0) _ _ noChangesNote);
      intros H; inversion H; subst st1 r; clear H; simpl;
      (split; [auto|]); (split; [assumption|]);
      exists (fetch ++ [PostNote projectId mrIid noChangesNote]);
      rewrite Htrace, cleanupCalls_app, Hnone; split; reflexivity. }
  unfold bind at 1, reviewMergeRequest, bind at 1, perform.
  destruct (copilot w _ _) as [content|e].
  2:{ intros H; inversion H; subst st1 r; clear H. simpl.
      split; [exact I|]. split; [assumption|].
      eexists (fetch ++ [Copilot _]).
      rewrite Htrace, cleanupCalls_app, Hnone. split; reflexivity. }
  unfold ret at 1. unfold bind at 1.
  match goal with
  | |- context [postReview ?n ?u ?w0 ?p ?i ?s ?cs ?dv0 ?st2] =>
      destruct (postReview_posts n u w0 p i s cs dv0 st2)
        as (posts & Hposts & H3);
      destruct (postReview n u w0 p i s cs dv0 st2) as [st3 [outcome|e]]
  end; simpl in Hposts; subst st3;
    assert (Hposts0 : cleanupCalls posts = 0)
      by (apply cleanupCalls_none; eapply Forall_impl; [|exact H3];
          simpl; intros; lia);
    intros H; inversion H; subst st1 r; clear H; unfold after; simpl;
    (split; [try exact I|]).
  - destruct (0 <? PostingOutcome.failed outcome)%Z; auto.
  - split; [assumption|].
    eexists ((fetch ++ [Copilot _]) ++ posts).
    rewrite Htrace, !cleanupCalls_app, Hnone, Hposts0.
    split; reflexivity.
  - split; [assumption|].
    eexists ((fetch ++ [Copilot _]) ++ posts).
    rewrite Htrace, !cleanupCalls_app, Hnone, Hposts0.
    split; reflexivity.
Qed.

(** X15. Once the configuration is loaded and the pipeline variables are
    read, which [main] does before its [try] block, the job always ends
    with an exit code, 0 or 1, never with an exception.  When git refuses
    the clone, the job does nothing but attempt the failure note and exits
    with 1: no diff is fetched and there is no clone to clean up.  When git
    has made the clone, the job cleans it up once, as its last call,
    however the review went. *)
Theorem ciMain_exit_code :
  forall (config : Config.t) (projectId mrIid : Z)
         (mrTitle mrDescription sourceBranch targetBranch projectUrl
          httpUrl : jsstring),
  exists st' code,
    ciMain Number_toString toUpperCase w config projectId mrIid mrTitle
           mrDescription sourceBranch targetBranch projectUrl httpUrl
           initialState = (st', Ok code) /\
    (code = 0%Z \/ code = 1%Z) /\
    match gitClone w [] httpUrl sourceBranch (Config.gitlabToken config) with
    | Ok dir =>
        exists t,
          trace st'
          = GitClone httpUrl sourceBranch (Config.gitlabToken config)
            :: t ++ [Cleanup dir] /\
          cleanupCalls t = 0
    | Throw e =>
        code = 1%Z /\
        trace st'
        = [GitClone httpUrl sourceBranch (Config.gitlabToken config);
           PostNote projectId mrIid (ciFailureNote e)]
    end.
Proof.
  intros config projectId mrIid mrTitle mrDescription sourceBranch
         targetBranch projectUrl httpUrl.
  unfold ciMain, tryFinally, tryCatch at 1.
  destruct (ciReviewAndPost _ _ _ _ _ _ _ _ _ _ _ _ initialState)
    as [st1 [code|e0]] eqn:Hrun;
    apply ciReviewAndPost_shape in Hrun as (Hcode & Hshape).
  - rewrite cleanUpClone_run.
    destruct (gitClone w [] httpUrl sourceBranch (Config.gitlabToken config))
      as [dir|e].
    + destruct Hshape as (Hclone & t & Htrace & Hnone). rewrite Hclone.
      eexists _, code. split; [reflexivity|]. split; [exact Hcode|].
      exists t. simpl. rewrite Htrace. split; [reflexivity | exact Hnone].
    + destruct Hshape as [_ Hthrow]. discriminate.
  - assert (Hnote :
      (_ <- tryCatch
              (postMergeRequestNote w projectId mrIid (ciFailureNote e0))
              (fun _ => ret tt) ;; ret 1%Z) st1
      = (after st1 [PostNote projectId mrIid (ciFailureNote e0)], Ok 1%Z)).
    { unfold bind, tryCatch, postMergeRequestNote, perform, ret, after.
      now destruct (postNote w (trace st1) projectId mrIid
                             (ciFailureNote e0)). }
    rewrite Hnote, cleanUpClone_run. unfold after at 1. simpl clone.
    destruct (gitClone w [] httpUrl sourceBranch (Config.gitlabToken config))
      as [dir|e].
    + destruct Hshape as (Hclone & t & Htrace & Hnone). rewrite Hclone.
      eexists _, 1%Z. split; [reflexivity|]. split; [now right|].
      exists (t ++ [PostNote projectId mrIid (ciFailureNote e0)]).
      simpl. rewrite Htrace, cleanupCalls_app, Hnone, <- !app_assoc.
      split; reflexivity.
    + destruct Hshape as [-> Hthrow]. inversion Hthrow; subst e0.
      eexists _, 1%Z. split; [reflexivity|]. split; [now right|].
      split; reflexivity.
Qed.

(** X16. The job exits with 0 when nothing goes wrong: git makes the clone,
    GitLab returns the diffs, Copilot answers and GitLab accepts every
    general note.  A refused inline discussion does not make the job fail,
    because its fallback note is accepted. *)
Theorem ciMain_exit_zero :
  forall (config : Config.t) (projectId mrIid : Z)
         (mrTitle mrDescription sourceBranch targetBranch projectUrl
          httpUrl dir content : jsstring) (st1 : RunState)
         (dv : MergeRequestDiffVersionDetail.t),
    gitClone w [] httpUrl sourceBranch (Config.gitlabToken config)
      = Ok dir ->
    getLatestDiffs Number_toString w projectId mrIid
      (mkState [GitClone httpUrl sourceBranch (Config.gitlabToken config)]
               (Some dir)) = (st1, Ok dv) ->
    copilot w (trace st1)
      (ReviewOptions.mk config dir mrTitle mrDescription
         (projectUrl ++ lit "/-/merge_requests/"
          ++ Number_toString (num_of_Z mrIid))
         sourceBranch targetBranch dv) = Ok content ->
    (forall t p i b, postNote w t p i b = Ok tt) ->
    snd (ciMain Number_toString toUpperCase w config projectId mrIid mrTitle
                mrDescription sourceBranch targetBranch projectUrl httpUrl
                initialState) = Ok 0%Z.
Proof.
  intros config projectId mrIid mrTitle mrDescription sourceBranch
         targetBranch projectUrl httpUrl dir content st1 dv Hclone Hfetch
         Hcopilot Hnotes.
  assert (Hrun : exists st2,
             ciReviewAndPost Number_toString toUpperCase w config projectId
               mrIid mrTitle mrDescription sourceBranch targetBranch
               projectUrl httpUrl initialState = (st2, Ok 0%Z)).
  { unfold ciReviewAndPost. unfold bind at 1, cloneRepository, perform.
    simpl trace. simpl clone. rewrite Hclone.
    unfold bind at 1, setClone. simpl trace. unfold bind at 1.
    rewrite Hfetch.
    destruct (MergeRequestDiffVersionDetail.diffs dv) as [|d ds].
    - unfold bind, postMergeRequestNote, perform, ret. rewrite Hnotes.
      eexists; reflexivity.
    - unfold bind at 1, reviewMergeRequest, bind at 1, perform.
      rewrite Hcopilot. unfold ret at 1. unfold bind at 1.
      match goal with
      | |- context [postReview ?n ?u ?w0 ?p ?i ?s ?cs ?dv0 ?st2] =>
          destruct (postComments_notes_accepted n u w0 p i dv0 cs Hnotes
                      (0, 0)%Z st2) as (st3 & Hloop);
          rewrite (postReview_unfold n u w0 p i dv0 s cs st2 _ _ Hloop)
      end.
      rewrite Hnotes. unfold ret. simpl. eexists; reflexivity. }
  destruct Hrun as (st2 & Hrun).
  unfold ciMain, tryFinally, tryCatch at 1. rewrite Hrun, cleanUpClone_run.
  now destruct (clone st2).
Qed.

End CiInvariants.

(* ========================================================================= *)
(** * The properties at sample inputs *)


(** Spec, section 8: previous [A], current [A, B] triggers; previous [A, B],
    current [A, B] does not; no change record triggers. *)
Example shouldTriggerReview_examples :
  shouldTriggerReview (payloadWith (Some botAdded)) sampleConfig = true /\
  shouldTriggerReview (payloadWith (Some botKept)) sampleConfig = false /\
  shouldTriggerReview (payloadWith None) sampleConfig = true.
Proof. repeat split; reflexivity. Qed.

(** C2 at a run in which GitLab accepts the first inline discussion and
    refuses the second; the notes are accepted. *)
Lemma postReview_fallback_policy_witness :
  postReview decimalString asciiUpper secondInlineFailsWorld 7 5
             (lit "summary") [commentOnDiff; secondCommentOnDiff]
             sampleDetail initialState =
  (after initialState
     [firstAttempt decimalString asciiUpper 7 5 sampleDetail commentOnDiff;
      firstAttempt decimalString asciiUpper 7 5 sampleDetail
                   secondCommentOnDiff;
      fallbackAttempt decimalString 7 5 secondCommentOnDiff;
      PostNote 7 5 (lit "summary")],
   Ok (PostingOutcome.mk 2 0)).
Proof.
  apply (proj2 (postReview_fallback_policy decimalString asciiUpper
                  secondInlineFailsWorld 7 5 sampleDetail)
               commentOnDiff secondCommentOnDiff sampleFile (lit "summary")
               initialState apiError);
    reflexivity.
Defined.

(** C2: the inline post of the first comment is accepted, the inline post of
    the second is refused and its fallback note accepted, and GitLab refuses
    the summary note: [postReview] has made the four posts and throws; the
    outcome posted 2, failed 0 is not returned. *)
Lemma postReview_fallback_policy_counterexample :
  answerTo summaryNoteRefusedWorld []
    (firstAttempt decimalString asciiUpper 7 5 sampleDetail commentOnDiff)
  = Ok tt /\
  answerTo summaryNoteRefusedWorld
    [firstAttempt decimalString asciiUpper 7 5 sampleDetail commentOnDiff]
    (firstAttempt decimalString asciiUpper 7 5 sampleDetail
                  secondCommentOnDiff)
  = Throw apiError /\
  answerTo summaryNoteRefusedWorld
    [firstAttempt decimalString asciiUpper 7 5 sampleDetail commentOnDiff;
     firstAttempt decimalString asciiUpper 7 5 sampleDetail
                  secondCommentOnDiff]
    (fallbackAttempt decimalString 7 5 secondCommentOnDiff)
  = Ok tt /\
  fallbackSummaryRefusedRun
  = (mkState
       [firstAttempt decimalString asciiUpper 7 5 sampleDetail commentOnDiff;
        firstAttempt decimalString asciiUpper 7 5 sampleDetail
                     secondCommentOnDiff;
        fallbackAttempt decimalString 7 5 secondCommentOnDiff;
        PostNote 7 5 (lit "summary")]
       None,
     Throw apiError) /\
  snd fallbackSummaryRefusedRun <> Ok (PostingOutcome.mk 2 0).
Proof.
  split; [reflexivity|]. split; [reflexivity|]. split; [reflexivity|].
  split; [reflexivity|]. intros H. vm_compute in H. discriminate H.
Qed.

(** C3: the summary of the fallback is the text as received, not the text
    the cleaning step hands to [JSON.parse]. *)
Lemma parseReviewResponse_fallback_counterexample :
  JSON_parse (cleanResponse fencedProse) = None /\
  cleanResponse fencedProse = lit "not json at all" /\
  ReviewResult.summary (parseReviewResponse fencedProse) = fencedProse /\
  ReviewResult.summary (parseReviewResponse fencedProse)
  <> cleanResponse fencedProse.
Proof.
  repeat split; try (vm_compute; reflexivity).
  intros H. vm_compute in H. discriminate H.
Qed.

Lemma parseReviewResponse_fallback_witness :
  parseReviewResponse fencedProse = ReviewResult.mk fencedProse [].
Proof.
  apply (proj1 (proj2 (parseReviewResponse_fallback fencedProse))).
  vm_compute. reflexivity.
Defined.

(** C4 at a run in which the clone fails. *)
Lemma handler_fatal_error_witness :
  exists st',
    handler decimalString asciiUpper noCloneWorld sampleConfig None
            samplePayload initialState = (st', Ok (ReviewFailed cloneError)) /\
    statusCode (ReviewFailed cloneError) = 500%Z /\
    notesOf (trace st') = [failureNote cloneError] /\
    (exists before behind,
       failureNote cloneError = before ++ cloneError ++ behind) /\
    (AcquiringSource <> Reviewing -> copilotCalls (trace st') = 0).
Proof.
  apply (handler_fatal_error decimalString asciiUpper noCloneWorld
           sampleConfig None samplePayload AcquiringSource cloneError).
  - reflexivity.
  - reflexivity.
  - eapply checkoutError; [reflexivity | discriminate | reflexivity].
Defined.

(** C5: with a diff without files and GitLab refusing general notes, the
    handler attempts two notes and answers 500. *)
Lemma handler_no_changes_counterexample :
  (exists st1,
     getLatestDiffs decimalString (noNotesWorld emptyDetail) 7 5 initialState
     = (st1, Ok emptyDetail)) /\
  MergeRequestDiffVersionDetail.diffs emptyDetail = [] /\
  snd noChangesRefusedRun = Ok (ReviewFailed apiError) /\
  statusCode (ReviewFailed apiError) = 500%Z /\
  notesOf (trace (fst noChangesRefusedRun))
  = [noChangesNote; failureNote apiError] /\
  ~ (length (notesOf (trace (fst noChangesRefusedRun))) = 1 /\
     exists r, snd noChangesRefusedRun = Ok r /\ statusCode r = 200%Z).
Proof.
  split; [eexists; reflexivity|].
  repeat split; try reflexivity.
  intros [Hlen _]. vm_compute in Hlen. discriminate Hlen.
Qed.

Lemma handler_no_changes_witness :
  exists st' r,
    noChangesRun = (st', Ok r) /\
    copilotCalls (trace st') = 0 /\
    r = NoDiffsToReview /\ statusCode r = 200%Z /\
    notesOf (trace st') = [noChangesNote].
Proof.
  destruct (handler_no_changes decimalString asciiUpper
              (worldWith emptyDetail (Ok tt) (Ok tt)
                         (Ok (lit "/tmp/gitlab-review-1")) (Ok sampleAnswer))
              sampleConfig None samplePayload
              (mkState [GetVersions 7 5; GetVersionDetail 7 5 11] None)
              emptyDetail eq_refl eq_refl eq_refl eq_refl)
    as (st' & r & Hrun & Hcop & Hnote).
  exists st', r. simpl in Hnote. tauto.
Defined.

(** C6: without comments and with GitLab refusing the summary note,
    [postReview] makes that one call and throws; it returns no outcome. *)
Lemma postReview_summary_counterexample :
  summaryRefusedRun
  = (mkState [PostNote 7 5 (lit "summary")] None, Throw apiError) /\
  snd summaryRefusedRun <> Ok (PostingOutcome.mk 0 0).
Proof.
  split; [reflexivity|]. intros H. vm_compute in H. discriminate H.
Qed.

(** C7: a comment on a file that is not in the diff, with GitLab refusing
    its note twice, is counted in [failed] and not in [posted]. *)
Lemma postReview_unmatched_file_counterexample :
  findDiffFile sampleDetail commentElsewhere = None /\
  snd unmatchedRefusedRun = Ok (PostingOutcome.mk 0 1) /\
  snd unmatchedRefusedRun <> Ok (PostingOutcome.mk 1 0) /\
  notesOf (trace (fst unmatchedRefusedRun))
  = [generalNoteBody decimalString commentElsewhere;
     generalNoteBody decimalString commentElsewhere;
     lit "summary"].
Proof.
  split; [reflexivity|]. split; [reflexivity|]. split; [|reflexivity].
  intros H. vm_compute in H. discriminate H.
Qed.

Lemma postReview_unmatched_file_witness :
  findDiffFile sampleDetail commentElsewhere = None /\
  exists st' counters',
    postComment decimalString asciiUpper fineWorld 7 5 sampleDetail
                (0, 0)%Z commentElsewhere initialState = (st', Ok counters') /\
    st' = after initialState
            [PostNote 7 5 (generalNoteBody decimalString commentElsewhere)] /\
    counters' = (1, 0)%Z.
Proof.
  destruct (postReview_unmatched_file decimalString asciiUpper fineWorld 7 5
              sampleDetail commentElsewhere [] (0, 0)%Z initialState)
    as (Hnone & _ & st' & counters' & Hturn & _ & Hst & Hcount).
  - intros d [<- | []]. split; discriminate.
  - split; [exact Hnone|]. exists st', counters'. auto.
Defined.

(** C9: inside a fence tagged js the answer is not decoded. *)
Lemma parseReviewResponse_fenced_counterexample :
  parseReviewResponse okAnswer = ReviewResult.mk (lit "ok") [] /\
  parseReviewResponse (wrapInFence (lit "js") okAnswer)
  = ReviewResult.mk (wrapInFence (lit "js") okAnswer) [] /\
  parseReviewResponse (wrapInFence (lit "js") okAnswer)
  <> parseReviewResponse okAnswer.
Proof.
  repeat split; try (vm_compute; reflexivity).
  intros H. vm_compute in H. discriminate H.
Qed.

Lemma parseReviewResponse_fenced_witness :
  parseReviewResponse (wrapInFence (lit "json") okAnswer)
  = parseReviewResponse okAnswer /\
  parseReviewResponse (wrapInFence [] okAnswer) = parseReviewResponse okAnswer.
Proof.
  apply (parseReviewResponse_fenced okAnswer (ReviewResult.mk (lit "ok") [])).
  vm_compute. reflexivity.
Defined.

(** The sample environment: the URL loses its two final slashes. *)
Lemma loadConfig_gitlabUrl_witness :
  exists config slashes,
    loadConfig sampleEnv = Ok config /\
    sampleEnv (lit "GITLAB_URL") = Some (Config.gitlabUrl config ++ slashes) /\
    Forall (fun c => c = 47%N) slashes /\
    endsWith [47%N] (Config.gitlabUrl config) = false.
Proof.
  eexists.
  destruct (loadConfig_gitlabUrl sampleEnv _ eq_refl)
    as (slashes & Henv & Hall & Hend).
  exists slashes. repeat split; assumption.
Defined.

(** The sample answer: its one candidate is kept. *)
Lemma parseReviewResponse_keeps_shaped_witness :
  exists rcs,
    parseReviewResponse sampleAnswer = ReviewResult.mk (lit "ok") rcs /\
    Forall2 recordOf (filter shaped (candidates sampleParsed)) rcs.
Proof.
  apply (parseReviewResponse_keeps_shaped sampleAnswer (lit "ok")
           sampleParsed).
  - vm_compute. reflexivity.
  - vm_compute. reflexivity.
  - vm_compute. apply Forall_cons; [discriminate | apply Forall_nil].
Defined.

(** An answer whose [comments] is a string keeps its summary. *)
Lemma parseReviewResponse_comments_not_array_witness :
  parseReviewResponse noArrayAnswer = ReviewResult.mk (lit "fine") [].
Proof.
  apply (parseReviewResponse_comments_not_array noArrayAnswer (lit "fine")
           noArrayParsed).
  - vm_compute. reflexivity.
  - vm_compute. reflexivity.
  - intros cs H. vm_compute in H. discriminate H.
Defined.

Lemma parseReviewResponse_plain_json_witness :
  parseReviewResponse okAnswer = ReviewResult.mk (lit "ok") [].
Proof.
  apply (parseReviewResponse_plain_json okAnswer
           (ReviewResult.mk (lit "ok") [])).
  vm_compute. reflexivity.
Defined.

(** Every inline discussion is refused, every note accepted: the comment is
    counted as posted. *)
Lemma postReview_notes_accepted_witness :
  exists st',
    postReview decimalString asciiUpper noInlineWorld 7 5 (lit "summary")
               [commentOnDiff] sampleDetail initialState =
    (st', Ok (PostingOutcome.mk 1 0)).
Proof.
  apply (postReview_notes_accepted decimalString asciiUpper noInlineWorld
           7 5 sampleDetail (lit "summary") [commentOnDiff] initialState).
  intros t p i b. reflexivity.
Defined.

Lemma handler_stage_order_witness :
  inStageOrder
    (trace (fst (handler decimalString asciiUpper fineWorld sampleConfig
                         None samplePayload initialState))).
Proof.
  apply (handler_stage_order decimalString asciiUpper fineWorld sampleConfig
           None samplePayload).
  - reflexivity.
  - vm_compute. reflexivity.
Defined.

Lemma handler_cleans_up_witness :
  exists t,
    trace (fst (handler decimalString asciiUpper fineWorld sampleConfig
                        None samplePayload initialState))
    = t ++ [Cleanup (lit "/tmp/gitlab-review-1")] /\
    cleanupCalls t = 0.
Proof.
  apply (handler_cleans_up decimalString asciiUpper fineWorld sampleConfig
           None samplePayload).
  - reflexivity.
  - vm_compute. reflexivity.
Defined.

(** In the world where everything works the review of the sample merge
    request is posted: one comment, posted inline, and the answer is 200. *)
Lemma handler_review_posted_witness :
  snd (handler decimalString asciiUpper fineWorld sampleConfig None
               samplePayload initialState)
  = Ok (ReviewPosted 1 1 0) /\
  notesOf (trace (fst (handler decimalString asciiUpper fineWorld
                               sampleConfig None samplePayload
                               initialState)))
  = [summaryBody decimalString (parseReviewResponse sampleAnswer)].
Proof.
  destruct (handler_review_posted decimalString asciiUpper fineWorld
              sampleConfig None samplePayload
              (mkState [GetVersions 7 5; GetVersionDetail 7 5 11] None)
              sampleDetail (lit "/tmp/gitlab-review-1") sampleAnswer)
    as [Hrun _].
  - reflexivity.
  - vm_compute. reflexivity.
  - reflexivity.
  - discriminate.
  - reflexivity.
  - reflexivity.
  - cbv zeta in Hrun. rewrite Hrun. split; vm_compute; reflexivity.
Defined.


(** In the world where everything works the job exits with 0. *)
Lemma ciMain_exit_zero_witness :
  snd (ciMain decimalString asciiUpper fineWorld sampleConfig 7 5
              (lit "Add x") [] (lit "feature") (lit "main")
              (lit "https://gitlab.example.com/g/p")
              (lit "https://gitlab.example.com/g/p.git") initialState)
  = Ok 0%Z.
Proof.
  apply (ciMain_exit_zero decimalString asciiUpper fineWorld sampleConfig
           7 5 (lit "Add x") [] (lit "feature") (lit "main")
           (lit "https://gitlab.example.com/g/p")
           (lit "https://gitlab.example.com/g/p.git")
           (lit "/tmp/gitlab-review-1") sampleAnswer
           (mkState
              [GitClone (lit "https://gitlab.example.com/g/p.git")
                        (lit "feature") (lit "glpat-x");
               GetVersions 7 5; GetVersionDetail 7 5 11]
              (Some (lit "/tmp/gitlab-review-1")))
           sampleDetail).
  - reflexivity.
  - reflexivity.
  - reflexivity.
  - intros t p i b. reflexivity.
Defined.
